(** * The [Cdn] component and the [Resource] table of cdn.ts

    A shallow embedding of [pkg/platform/src/components/aws/cdn.ts]: the
    constructor of the [Cdn] component with its six local steps
    ([normalizeDomain], [lookupHostedZoneId], [createSsl],
    [createDistribution], [createRoute53Records], [createRedirects]), the
    getters [url] and [domainUrl], and the [get] trap of the [Resource]
    proxy.

    Modelling conventions.
    - A Pulumi [Output<T>] is represented by what it settles to: a value
      ([Resolved]) or a rejection ([Rejected]).  Preview-time unknown
      values are outside the model.
    - [o.apply(f)] runs [f] when [o] resolves and never when it rejects; a
      [throw] inside [f] rejects the Output that [apply] returns, it does
      not unwind the constructor.
    - Every [new SomeResource(name, args, opts)] is recorded in a log, in
      the order of the describing code.  The log is a list of requests, not
      a timeline: callbacks of [apply] run after the synchronous pass of
      the constructor.
    - The log holds the resources requested by the body of the
      constructor; the registration of the component itself by
      [super("sst:aws:CDN", ...)] (line 107) is not part of it.
    - What the provisioning engine answers (the distribution's edge host
      name, the zone id found by a lookup, the certificate ARN) is left
      abstract as section variables. *)

From Stdlib Require Import String Ascii List Bool Lia.
From stdpp Require Import base option list strings gmap.


(** ** JavaScript values *)

(** The double quote character, used inside error messages. *)
Definition dq : string := String (ascii_of_nat 34) EmptyString.

Definition quoted (s : string) : string := dq +:+ s +:+ dq.

(** Truthiness of a string: only the empty string is falsy. *)
Definition truthy (s : string) : bool :=
  match s with
  | EmptyString => false
  | String _ _ => true
  end.

(** Truthiness of an optional string property: a missing (or undefined)
    property is falsy. *)
Definition truthy_opt (o : option string) : bool :=
  match o with
  | Some s => truthy s
  | None => false
  end.

(** [a ?? b]: the left operand unless it is undefined. *)
Definition nullish {A : Type} (a : option A) (b : A) : A :=
  match a with
  | Some x => x
  | None => b
  end.

(** What a piece of code can throw, or an Output can reject with. *)
Inductive Exn : Type :=
| Error (message : string)      (* [throw new Error(message)] in cdn.ts *)
| TypeError                     (* raised by the JavaScript runtime *)
| SyntaxError                   (* raised by [JSON.parse] *)
| Rejection (reason : string).  (* a failure reported by a collaborator *)

(** ** Outputs and inputs *)

Inductive Output (A : Type) : Type :=
| Resolved (a : A)
| Rejected (e : Exn).

Arguments Resolved {A} a.
Arguments Rejected {A} e.

(** [Input<T> = T | Promise<T> | Output<T>]: a plain value, or something
    asynchronous, represented by what [output(...)] of it settles to. *)
Inductive Input (A : Type) : Type :=
| Plain (a : A)
| Async (o : Output A).

Arguments Plain {A} a.
Arguments Async {A} o.

Definition output {A : Type} (i : Input A) : Output A :=
  match i with
  | Plain a => Resolved a
  | Async o => o
  end.

(** Lifted property access on an Output: [o.field]. *)
Definition lift {A B : Type} (f : A -> B) (o : Output A) : Output B :=
  match o with
  | Resolved a => Resolved (f a)
  | Rejected e => Rejected e
  end.

(** [interpolate`prefix${o}`]. *)
Definition interpolate (prefix : string) (o : Output string) : Output string :=
  lift (fun s => prefix +:+ s) o.

Definition is_rejected {A : Type} (o : Output A) : bool :=
  match o with
  | Resolved _ => false
  | Rejected _ => true
  end.

Definition input_rejected {A : Type} (i : Input A) : bool :=
  is_rejected (output i).

(** ** The domain descriptor *)

(** An optional property of an object literal that is spread over
    defaults: the key can be absent, present with the value [undefined],
    or present with a value.  [{ k: dflt, ...obj }] keeps [dflt] only when
    the key is absent. *)
Inductive Optional (A : Type) : Type :=
| Absent
| Undefined
| Given (a : A).

Arguments Absent {A}.
Arguments Undefined {A}.
Arguments Given {A} a.

Definition spread_over {A : Type} (dflt : A) (o : Optional A) : option A :=
  match o with
  | Absent => Some dflt
  | Undefined => None
  | Given a => Some a
  end.

(** [interface CdnDomainArgs], after [output(...)] has unwrapped nested
    inputs.  [domainName], [hostedZone] and [hostedZoneId] are only ever
    tested with [!x], [&&] and [??], which do not tell a missing key from
    an undefined one, so [None] stands for both. *)
Module CdnDomainArgs.
Record t : Type := mk {
    domainName : option string;
    redirects : Optional (list string);
    aliases : Optional (list string);
    hostedZone : option string;
    hostedZoneId : option string
  }.
End CdnDomainArgs.

(** The value held by [args.domain]: [string | CdnDomainArgs]. *)
Inductive DomainValue : Type :=
| DomainString (s : string)
| DomainObject (d : CdnDomainArgs.t).

(** The object produced by the normalizer.  [aliases] and [redirects] are
    [None] when the descriptor carried the key with the value
    [undefined]. *)
Module DomainConfig.
Record t : Type := mk {
    domainName : string;
    aliases : option (list string);
    redirects : option (list string);
    hostedZone : option string;
    hostedZoneId : option string
  }.

  (** A normalized object read again as a descriptor. *)
Definition as_args (c : t) : CdnDomainArgs.t :=
    {| CdnDomainArgs.domainName := Some (domainName c);
       CdnDomainArgs.redirects :=
         match redirects c with Some l => Given l | None => Undefined end;
       CdnDomainArgs.aliases :=
         match aliases c with Some l => Given l | None => Undefined end;
       CdnDomainArgs.hostedZone := hostedZone c;
       CdnDomainArgs.hostedZoneId := hostedZoneId c |}.
End DomainConfig.

Definition missing_domainName_message : string :=
  "Missing " +:+ quoted "domainName" +:+ " for domain.".

Definition both_hostedZone_message : string :=
  "Do not set both " +:+ quoted "hostedZone" +:+ " and "
    +:+ quoted "hostedZoneId" +:+ ".".

(** The callback of [normalizeDomain] (cdn.ts, lines 126-138). *)
Definition normalizeDomain_callback (domain : DomainValue)
  : Output DomainConfig.t :=
  match domain with
  | DomainString s =>
      Resolved (DomainConfig.mk s (Some []) (Some []) None None)
  | DomainObject d =>
      match CdnDomainArgs.domainName d with
      | None => Rejected (Error missing_domainName_message)
      | Some n =>
          if negb (truthy n) then
            Rejected (Error missing_domainName_message)
          else if truthy_opt (CdnDomainArgs.hostedZone d)
                  && truthy_opt (CdnDomainArgs.hostedZoneId d) then
            Rejected (Error both_hostedZone_message)
          else
            Resolved
              (DomainConfig.mk n
                 (spread_over [] (CdnDomainArgs.aliases d))
                 (spread_over [] (CdnDomainArgs.redirects d))
                 (CdnDomainArgs.hostedZone d)
                 (CdnDomainArgs.hostedZoneId d))
      end
  end.

(** ** Arguments of the resources the component requests *)

Module DnsValidatedCertificateArgs.
Record t : Type := mk {
    domainName : Output string;
    alternativeNames : Output (option (list string));
    zoneId : Output string
  }.
End DnsValidatedCertificateArgs.

Module DefaultCacheBehavior.
Record t : Type := mk {
    allowedMethods : list string;
    cachedMethods : list string;
    targetOriginId : string;
    viewerProtocolPolicy : string
  }.
End DefaultCacheBehavior.

Module Origin.
Record t : Type := mk {
    originId : string;
    domainName : string
  }.
End Origin.

Module GeoRestriction.
Record t : Type := mk { restrictionType : string }.
End GeoRestriction.

Module Restrictions.
Record t : Type := mk { geoRestriction : GeoRestriction.t }.
End Restrictions.

Module ViewerCertificate.
Record t : Type := mk {
    acmCertificateArn : option (Output string);
    sslSupportMethod : option string;
    cloudfrontDefaultCertificate : option bool
  }.
End ViewerCertificate.

Module DistributionArgs.
Record t : Type := mk {
    defaultCacheBehavior : DefaultCacheBehavior.t;
    enabled : bool;
    origins : list Origin.t;
    restrictions : Restrictions.t;
    aliases : Input (list string);
    viewerCertificate : ViewerCertificate.t
  }.
End DistributionArgs.

Module RecordAlias.
Record t : Type := mk {
    name : Output string;
    zoneId : Output string;
    evaluateTargetHealth : bool
  }.
End RecordAlias.

Module RecordArgs.
Record t : Type := mk {
    name : string;
    zoneId : Output string;
    type : string;
    aliases : list RecordAlias.t
  }.
End RecordArgs.

Module HttpsRedirectArgs.
Record t : Type := mk {
    zoneId : Output string;
    sourceDomains : list string;
    targetDomain : string
  }.
End HttpsRedirectArgs.

(** One entry per [new ...(name, args, opts)] of the constructor.  Every
    request is made with [{ parent }]; the certificate also names the
    region of its provider. *)
Inductive Request : Type :=
| HostedZoneLookup (name : string) (domain : string)
| DnsValidatedCertificate (name : string)
    (args : DnsValidatedCertificateArgs.t) (region : string)
| Distribution (name : string) (args : DistributionArgs.t)
| Route53Record (name : string) (args : RecordArgs.t)
| HttpsRedirect (name : string) (args : HttpsRedirectArgs.t).

(** The engine registers a request only after every Output among its
    arguments has resolved.  A request is [blocked] when one of these
    arguments is rejected: it never reaches the engine. *)
Definition blocked (r : Request) : bool :=
  match r with
  | HostedZoneLookup _ _ => false
  | DnsValidatedCertificate _ a _ =>
      is_rejected (DnsValidatedCertificateArgs.domainName a)
      || is_rejected (DnsValidatedCertificateArgs.alternativeNames a)
      || is_rejected (DnsValidatedCertificateArgs.zoneId a)
  | Distribution _ a =>
      input_rejected (DistributionArgs.aliases a)
      || match ViewerCertificate.acmCertificateArn
                 (DistributionArgs.viewerCertificate a) with
         | Some arn => is_rejected arn
         | None => false
         end
  | Route53Record _ a =>
      is_rejected (RecordArgs.zoneId a)
      || existsb (fun t => is_rejected (RecordAlias.name t)
                           || is_rejected (RecordAlias.zoneId t))
           (RecordArgs.aliases a)
  | HttpsRedirect _ a => is_rejected (HttpsRedirectArgs.zoneId a)
  end.

Definition is_lookup (r : Request) : bool :=
  match r with HostedZoneLookup _ _ => true | _ => false end.

Definition is_certificate (r : Request) : bool :=
  match r with DnsValidatedCertificate _ _ _ => true | _ => false end.

Definition is_distribution (r : Request) : bool :=
  match r with Distribution _ _ => true | _ => false end.

Definition is_record (r : Request) : bool :=
  match r with Route53Record _ _ => true | _ => false end.

Definition is_redirect (r : Request) : bool :=
  match r with HttpsRedirect _ _ => true | _ => false end.

(** ** The request log *)

(** A computation that returns a value and appends requests to the log. *)
Definition M (A : Type) : Type := A * list Request.

Definition ret {A : Type} (a : A) : M A := (a, []).

Definition bind {A B : Type} (m : M A) (k : A -> M B) : M B :=
  let (a, l1) := m in
  let (b, l2) := k a in
  (b, l1 ++ l2).

Definition new (r : Request) : M unit := (tt, [r]).

Definition value {A : Type} (m : M A) : A := fst m.

Definition requests {A : Type} (m : M A) : list Request := snd m.

Notation "'let*' x := c 'in' k" := (bind c (fun x => k))
  (at level 10, x name, c at level 100, k at level 200).
Notation "c ;; k" := (bind c (fun _ => k))
  (at level 100, k at level 200, right associativity).

(** [o.apply(f)] for a callback without effects. *)
Definition Output_then {A B : Type} (o : Output A) (f : A -> Output B)
  : Output B :=
  match o with
  | Resolved a => f a
  | Rejected e => Rejected e
  end.

(** [o.apply(f)] for a callback that may request resources. *)
Definition Output_apply {A B : Type} (o : Output A)
    (f : A -> M (Output B)) : M (Output B) :=
  match o with
  | Resolved a => f a
  | Rejected e => ret (Rejected e)
  end.

(** [for (const x of l) body(x)]. *)
Fixpoint for_of {A : Type} (l : list A) (body : A -> M unit) : M unit :=
  match l with
  | [] => ret tt
  | x :: rest => body x ;; for_of rest body
  end.

(** [[first, ...rest]]: spreading [undefined] into an array literal throws
    a TypeError. *)
Definition cons_spread {A : Type} (first : A) (rest : option (list A))
  : Output (list A) :=
  match rest with
  | Some l => Resolved (first :: l)
  | None => Rejected TypeError
  end.

(** ** Arguments of the component *)

(** Modelled from the spec: [Transform] and [transform] of
    [../component.js] are not among the sources; the spec describes the
    hook as an optional caller-supplied function from the default argument
    set to the final one, applied to the fully built arguments immediately
    before the resource is requested. *)
Definition Transform (T : Type) : Type := option (T -> T).

Definition transform {T : Type} (t : Transform T) (args : T) : T :=
  match t with
  | Some f => f args
  | None => args
  end.

Module CdnArgs.
Record t : Type := mk {
    domain : option (Input DomainValue);
    transform_distribution : Transform DistributionArgs.t
  }.
End CdnArgs.

(** Truthiness of an optional object ([undefined] is falsy). *)
Definition defined {A : Type} (o : option A) : bool :=
  match o with
  | Some _ => true
  | None => false
  end.

(** Truthiness of [args.domain]: true for an object, a promise or an
    Output, and for a non-empty string. *)
Definition domain_truthy (d : option (Input DomainValue)) : bool :=
  match d with
  | None => false
  | Some (Plain (DomainString s)) => truthy s
  | Some (Plain (DomainObject _)) => true
  | Some (Async _) => true
  end.

(** Handles on the resources whose outputs the constructor reads. *)
Module CertificateHandle.
Record t : Type := mk { certificateArn : Output string }.
End CertificateHandle.

Module DistributionHandle.
Record t : Type := mk {
    domainName : Output string;
    hostedZoneId : Output string
  }.
End DistributionHandle.

Module Cdn.
Record t : Type := mk {
    distribution : DistributionHandle.t;
    _domainUrl : option (Output string)
  }.
End Cdn.

(** ** The constructor of [Cdn] *)

Section Constructor.

(** [sanitizeToPascalCase] of [../naming.js]. *)
Variable sanitizeToPascalCase : string -> string.

(** Outputs of the resources, as answered by the engine. *)
Variable HostedZoneLookup_zoneId : string -> string -> Output string.
Variable DnsValidatedCertificate_certificateArn :
  string -> DnsValidatedCertificateArgs.t -> Output string.
Variable Distribution_domainName : string -> DistributionArgs.t -> Output string.
Variable Distribution_hostedZoneId : string -> DistributionArgs.t -> Output string.

(** The name of the component and its arguments. *)
Variable name : string.
Variable args : CdnArgs.t.

(** cdn.ts, lines 123-139.  [None] is [undefined]. *)
Definition normalizeDomain : option (Output DomainConfig.t) :=
  if negb (domain_truthy (CdnArgs.domain args)) then None
  else
    match CdnArgs.domain args with
    | Some d => Some (Output_then (output d) normalizeDomain_callback)
    | None => None
    end.

(** cdn.ts, lines 141-155. *)
Definition lookupHostedZoneId (domain : option (Output DomainConfig.t))
  : M (option (Output string)) :=
  match domain with
  | None => ret None
  | Some domain =>
      let* zoneId :=
        Output_apply domain (fun domain =>
          let lookup :=
            let lookupName := name +:+ "HostedZoneLookup" in
            let lookupDomain :=
              nullish (DomainConfig.hostedZone domain)
                (DomainConfig.domainName domain) in
            new (HostedZoneLookup lookupName lookupDomain) ;;
            ret (HostedZoneLookup_zoneId lookupName lookupDomain) in
          match DomainConfig.hostedZoneId domain with
          | Some id => if truthy id then ret (output (Plain id)) else lookup
          | None => lookup
          end) in
      ret (Some zoneId)
  end.

(** cdn.ts, lines 157-171. *)
Definition createSsl (domain : option (Output DomainConfig.t))
    (zoneId : option (Output string)) : M (option CertificateHandle.t) :=
  if negb (defined domain) || negb (defined zoneId) then ret None
  else
    match domain, zoneId with
    | Some domain, Some zoneId =>
        let certName := name +:+ "Ssl" in
        let certArgs :=
          DnsValidatedCertificateArgs.mk
            (lift DomainConfig.domainName domain)
            (lift DomainConfig.aliases domain)
            zoneId in
        new (DnsValidatedCertificate certName certArgs "us-east-1") ;;
        ret (Some (CertificateHandle.mk
                     (DnsValidatedCertificate_certificateArn certName certArgs)))
    | _, _ => ret None
    end.

(** The argument set built at lines 177-204, before the transform. *)
Definition distributionDefaults (domain : option (Output DomainConfig.t))
    (certificate : option CertificateHandle.t) : DistributionArgs.t :=
  DistributionArgs.mk
    (DefaultCacheBehavior.mk [] [] "placeholder" "redirect-to-https")
    true
    []
    (Restrictions.mk (GeoRestriction.mk "none"))
    (match domain with
     | Some domain =>
         Async (Output_then (output (Async domain)) (fun domain =>
                  cons_spread (DomainConfig.domainName domain)
                    (DomainConfig.aliases domain)))
     | None => Plain []
     end)
    (match certificate with
     | Some certificate =>
         ViewerCertificate.mk
           (Some (CertificateHandle.certificateArn certificate))
           (Some "sni-only") None
     | None => ViewerCertificate.mk None None (Some true)
     end).

(** cdn.ts, lines 173-207. *)
Definition createDistribution (domain : option (Output DomainConfig.t))
    (certificate : option CertificateHandle.t) : M DistributionHandle.t :=
  let distName := name +:+ "Distribution" in
  let distArgs :=
    transform (CdnArgs.transform_distribution args)
      (distributionDefaults domain certificate) in
  new (Distribution distName distArgs) ;;
  ret (DistributionHandle.mk (Distribution_domainName distName distArgs)
         (Distribution_hostedZoneId distName distArgs)).

(** The record requested at lines 218-233 for one name and one type. *)
Definition dnsRecord (zoneId : Output string)
    (distribution : DistributionHandle.t) (recordName type : string)
  : Request :=
  Route53Record
    (name +:+ type +:+ "Record" +:+ sanitizeToPascalCase recordName)
    (RecordArgs.mk recordName zoneId type
       [RecordAlias.mk (DistributionHandle.domainName distribution)
          (DistributionHandle.hostedZoneId distribution) true]).

(** cdn.ts, lines 209-237. *)
Definition createRoute53Records (domain : option (Output DomainConfig.t))
    (zoneId : option (Output string)) (distribution : DistributionHandle.t)
  : M unit :=
  if negb (defined domain) || negb (defined zoneId) then ret tt
  else
    match domain, zoneId with
    | Some domain, Some zoneId =>
        Output_apply (output (Async domain)) (fun domain =>
          match cons_spread (DomainConfig.domainName domain)
                  (DomainConfig.aliases domain) with
          | Rejected e => ret (Rejected e)
          | Resolved recordNames =>
              for_of recordNames (fun recordName =>
                for_of ["A"; "AAAA"] (fun type =>
                  new (dnsRecord zoneId distribution recordName type))) ;;
              ret (Resolved tt)
          end) ;;
        ret tt
    | _, _ => ret tt
    end.

(** cdn.ts, lines 239-257. *)
Definition createRedirects (domain : option (Output DomainConfig.t))
    (zoneId : option (Output string)) : M unit :=
  if negb (defined zoneId) || negb (defined domain) then ret tt
  else
    match zoneId, domain with
    | Some zoneId, Some domain =>
        Output_apply (output (Async domain)) (fun domain =>
          match DomainConfig.redirects domain with
          | None => ret (Rejected TypeError)
          | Some redirects =>
              if Nat.eqb (length redirects) 0 then ret (Resolved tt)
              else
                new (HttpsRedirect (name +:+ "Redirect")
                       (HttpsRedirectArgs.mk zoneId redirects
                          (DomainConfig.domainName domain))) ;;
                ret (Resolved tt)
          end) ;;
        ret tt
    | _, _ => ret tt
    end.

(** cdn.ts, lines 106-121. *)
Definition constructor : M Cdn.t :=
  let domain := normalizeDomain in
  let* zoneId := lookupHostedZoneId domain in
  let* certificate := createSsl domain zoneId in
  let* distribution := createDistribution domain certificate in
  createRoute53Records domain zoneId distribution ;;
  createRedirects domain zoneId ;;
  ret (Cdn.mk distribution
         (match domain with
          | Some domain =>
              Some (interpolate "https://"
                      (lift DomainConfig.domainName domain))
          | None => None
          end)).

(** The zone id computed by the constructor (line 112). *)
Definition zoneId : option (Output string) :=
  value (lookupHostedZoneId normalizeDomain).

End Constructor.

(** cdn.ts, lines 263-265. *)
Definition url (c : Cdn.t) : Output string :=
  interpolate "https://" (DistributionHandle.domainName (Cdn.distribution c)).

(** cdn.ts, lines 271-273. *)
Definition domainUrl (c : Cdn.t) : option (Output string) :=
  Cdn._domainUrl c.

(** ** The [Resource] proxy *)

(** How a call completes: with a value, or by throwing. *)
Inductive Completion (A : Type) : Type :=
| Return (a : A)
| Throw (e : Exn).

Arguments Return {A} a.
Arguments Throw {A} e.

Definition not_linked_message (prop : string) : string :=
  dq +:+ prop +:+ dq +:+ " is not linked".

Section ResourceProxy.

(** JavaScript values held by the link table and produced by [JSON.parse],
    which throws a SyntaxError ([None]) on malformed text. *)
Variable Value : Type.
Variable JSON_parse : string -> option Value.

(** The [get] trap (lines 287-299).  [process_env] is [process.env];
    [SST_LINKS] is [globalThis.$SST_LINKS], [None] when the global was
    never injected, and otherwise the properties that the [in] operator
    sees on it. *)
Definition Resource_get (process_env : gmap string string)
    (SST_LINKS : option (gmap string Value)) (prop : string)
  : Completion Value :=
  let envName := "SST_RESOURCE_" +:+ prop in
  let fromLinks :=
    match SST_LINKS with
    | None => Throw TypeError
    | Some links =>
        match links !! prop with
        | Some v => Return v
        | None => Throw (Error (not_linked_message prop))
        end
    end in
  match process_env !! envName with
  | Some text =>
      if truthy text then
        match JSON_parse text with
        | Some v => Return v
        | None => Throw SyntaxError
        end
      else fromLinks
  | None => fromLinks
  end.

End ResourceProxy.

Arguments Resource_get {Value} JSON_parse process_env SST_LINKS prop.

(** ** A sample deployment *)

(** Concrete collaborators, used to run the constructor on examples: the
    zone lookup answers [Z-] followed by the name it was asked for, the
    certificate ARN is known once the certificate's arguments are, and the
    distribution lives at [d111111abcdef8.cloudfront.net]. *)
Module Sample.

Definition sanitize (s : string) : string := s.

Definition lookup_zoneId (lookupName domain : string) : Output string :=
  Resolved ("Z-" +:+ domain).

Definition certificateArn (certName : string)
    (a : DnsValidatedCertificateArgs.t) : Output string :=
  Output_then (DnsValidatedCertificateArgs.domainName a) (fun _ =>
  Output_then (DnsValidatedCertificateArgs.alternativeNames a) (fun _ =>
  Output_then (DnsValidatedCertificateArgs.zoneId a) (fun _ =>
  Resolved "arn:aws:acm:us-east-1:123456789012:certificate/1")))%string.

Definition edge_domainName (distName : string) (a : DistributionArgs.t)
  : Output string :=
  Resolved "d111111abcdef8.cloudfront.net".

Definition edge_hostedZoneId (distName : string) (a : DistributionArgs.t)
  : Output string :=
  Resolved "Z2FDTNDATAQYW2".

Definition new_Cdn (args : CdnArgs.t) : M Cdn.t :=
  constructor sanitize lookup_zoneId certificateArn edge_domainName
    edge_hostedZoneId "Web" args.

Definition zone (args : CdnArgs.t) : option (Output string) :=
  zoneId lookup_zoneId "Web" args.

(** [domain: value], without a transform. *)
Definition with_domain (v : DomainValue) : CdnArgs.t :=
  CdnArgs.mk (Some (Plain v)) None.

(** [{ domainName: "example.com", hostedZone: "", hostedZoneId:
    "Z0123456789ABC" }]. *)
Definition empty_hostedZone : CdnDomainArgs.t :=
  CdnDomainArgs.mk (Some "example.com") Absent Absent
    (Some EmptyString) (Some "Z0123456789ABC").

(** [{ domainName: "example.com", hostedZoneId: "" }]. *)
Definition empty_hostedZoneId : CdnDomainArgs.t :=
  CdnDomainArgs.mk (Some "example.com") Absent Absent
    None (Some EmptyString).

(** [{ domainName: "app.example.com", hostedZone: "example.com",
    hostedZoneId: "Z0123456789ABC" }]. *)
Definition both_zone_fields : CdnDomainArgs.t :=
  CdnDomainArgs.mk (Some "app.example.com") Absent Absent
    (Some "example.com") (Some "Z0123456789ABC").

(** [{ aliases: ["www.example.com"] }]. *)
Definition no_domainName : CdnDomainArgs.t :=
  CdnDomainArgs.mk None Absent (Given ["www.example.com"]) None None.

(** [{ domainName: "app.example.com", hostedZone: "example.com",
    aliases: ["api.example.com"], redirects: ["www.example.com"] }]. *)
Definition app : CdnDomainArgs.t :=
  CdnDomainArgs.mk (Some "app.example.com") (Given ["www.example.com"])
    (Given ["api.example.com"]) (Some "example.com") None.

Definition app_config : DomainConfig.t :=
  DomainConfig.mk "app.example.com" (Some ["api.example.com"])
    (Some ["www.example.com"]) (Some "example.com") None.

(** A [JSON.parse] that only reads the text [42]. *)
Definition parse (text : string) : option nat :=
  if String.eqb text "42" then Some 42 else None.

End Sample.

(** ** Further accessors *)

(** cdn.ts, lines 275-279. *)
Module CdnNodes.
Record t : Type := mk { distribution : DistributionHandle.t }.
End CdnNodes.

Definition nodes (c : Cdn.t) : CdnNodes.t :=
  CdnNodes.mk (Cdn.distribution c).

(** The first argument of [new ...(name, args, opts)]: the logical name
    under which the engine tracks the resource. *)
Definition request_name (r : Request) : string :=
  match r with
  | HostedZoneLookup n _ => n
  | DnsValidatedCertificate n _ _ => n
  | Distribution n _ => n
  | Route53Record n _ => n
  | HttpsRedirect n _ => n
  end.

(** * Properties *)

(** ** The request log *)

Lemma value_bind {A B : Type} (m : M A) (k : A -> M B) :
  value (bind m k) = value (k (value m)).
Proof.
  unfold value, bind. destruct m as [a l1]. simpl.
  destruct (k a) as [b l2]. reflexivity.
Qed.

Lemma requests_bind {A B : Type} (m : M A) (k : A -> M B) :
  requests (bind m k) = requests m ++ requests (k (value m)).
Proof.
  unfold requests, value, bind. destruct m as [a l1]. simpl.
  destruct (k a) as [b l2]. reflexivity.
Qed.

Lemma requests_for_of {A : Type} (l : list A) (body : A -> M unit) :
  requests (for_of l body) = flat_map (fun x => requests (body x)) l.
Proof.
  induction l as [|x rest IH]; simpl.
  - reflexivity.
  - rewrite requests_bind, IH. reflexivity.
Qed.

(** ** The normalizer *)

Lemma truthy_nonempty (s : string) : truthy s = true <-> s <> EmptyString.
Proof.
  destruct s as [|c s]; simpl; split; intros H.
  - discriminate.
  - contradiction.
  - discriminate.
  - reflexivity.
Qed.

Lemma normalizeDomain_None (args : CdnArgs.t) :
  normalizeDomain args = None <-> domain_truthy (CdnArgs.domain args) = false.
Proof.
  unfold normalizeDomain.
  destruct (CdnArgs.domain args) as [i|] eqn:E.
  - destruct (domain_truthy (Some i)); simpl; split; intros H; congruence.
  - simpl. split; reflexivity.
Qed.

Lemma normalizeDomain_Some (args : CdnArgs.t) (i : Input DomainValue) :
  CdnArgs.domain args = Some i ->
  domain_truthy (Some i) = true ->
  normalizeDomain args = Some (Output_then (output i) normalizeDomain_callback).
Proof.
  intros E T. unfold normalizeDomain. rewrite E, T. reflexivity.
Qed.

(** A descriptor, given plainly or through a promise or an Output, always
    counts as a configured domain. *)
Lemma descriptor_truthy (i : Input DomainValue) (d : CdnDomainArgs.t) :
  output i = Resolved (DomainObject d) -> domain_truthy (Some i) = true.
Proof.
  destruct i as [[s|d']|o]; simpl; intros H; congruence.
Qed.

Lemma callback_missing_domainName (d : CdnDomainArgs.t) :
  truthy_opt (CdnDomainArgs.domainName d) = false ->
  normalizeDomain_callback (DomainObject d)
  = Rejected (Error missing_domainName_message).
Proof.
  simpl. destruct (CdnDomainArgs.domainName d) as [n|]; simpl.
  - intros ->. reflexivity.
  - reflexivity.
Qed.

Lemma callback_both_zone_fields (d : CdnDomainArgs.t) :
  truthy_opt (CdnDomainArgs.domainName d) = true ->
  truthy_opt (CdnDomainArgs.hostedZone d) = true ->
  truthy_opt (CdnDomainArgs.hostedZoneId d) = true ->
  normalizeDomain_callback (DomainObject d)
  = Rejected (Error both_hostedZone_message).
Proof.
  simpl. destruct (CdnDomainArgs.domainName d) as [n|]; simpl.
  - intros -> -> ->. reflexivity.
  - discriminate.
Qed.

(** ** The constructor *)

Section ConstructorProperties.

Variable sanitizeToPascalCase : string -> string.
Variable HostedZoneLookup_zoneId : string -> string -> Output string.
Variable DnsValidatedCertificate_certificateArn :
  string -> DnsValidatedCertificateArgs.t -> Output string.
Variable Distribution_domainName : string -> DistributionArgs.t -> Output string.
Variable Distribution_hostedZoneId : string -> DistributionArgs.t -> Output string.
Variable name : string.

Abbreviation new_Cdn :=
  (constructor sanitizeToPascalCase HostedZoneLookup_zoneId
     DnsValidatedCertificate_certificateArn Distribution_domainName
     Distribution_hostedZoneId name).
Abbreviation the_zoneId := (zoneId HostedZoneLookup_zoneId name).

(** The log of the constructor is the concatenation of the logs of its
    five resource steps. *)
Lemma constructor_requests (args : CdnArgs.t) :
  let domain := normalizeDomain args in
  let zone := the_zoneId args in
  let certificate :=
    value (createSsl DnsValidatedCertificate_certificateArn name domain zone) in
  let distribution :=
    value (createDistribution Distribution_domainName
             Distribution_hostedZoneId name args domain certificate) in
  requests (new_Cdn args)
  = requests (lookupHostedZoneId HostedZoneLookup_zoneId name domain)
    ++ requests (createSsl DnsValidatedCertificate_certificateArn name
                   domain zone)
    ++ requests (createDistribution Distribution_domainName
                   Distribution_hostedZoneId name args domain certificate)
    ++ requests (createRoute53Records sanitizeToPascalCase name domain zone
                   distribution)
    ++ requests (createRedirects name domain zone).
Proof.
  intros domain zone certificate distribution.
  unfold constructor. rewrite !requests_bind.
  fold domain. unfold ret at 1. simpl requests at 6.
  rewrite app_nil_r. reflexivity.
Qed.

Lemma constructor_distribution (args : CdnArgs.t) :
  let domain := normalizeDomain args in
  let zone := the_zoneId args in
  let certificate :=
    value (createSsl DnsValidatedCertificate_certificateArn name domain zone) in
  Cdn.distribution (value (new_Cdn args))
  = value (createDistribution Distribution_domainName
             Distribution_hostedZoneId name args domain certificate).
Proof.
  intros domain zone certificate.
  unfold constructor. rewrite !value_bind. reflexivity.
Qed.

Lemma constructor_domainUrl (args : CdnArgs.t) :
  domainUrl (value (new_Cdn args))
  = match normalizeDomain args with
    | Some domain =>
        Some (interpolate "https://" (lift DomainConfig.domainName domain))
    | None => None
    end.
Proof.
  unfold constructor. rewrite !value_bind. reflexivity.
Qed.

(** The zone id is the normalized domain mapped through the callback of
    [lookupHostedZoneId]. *)
Lemma zoneId_eq (args : CdnArgs.t) :
  the_zoneId args
  = match normalizeDomain args with
    | None => None
    | Some domain =>
        Some (Output_then domain (fun cfg =>
                let found :=
                  HostedZoneLookup_zoneId (name +:+ "HostedZoneLookup")
                    (nullish (DomainConfig.hostedZone cfg)
                       (DomainConfig.domainName cfg)) in
                match DomainConfig.hostedZoneId cfg with
                | Some id => if truthy id then Resolved id else found
                | None => found
                end))
    end.
Proof.
  unfold zoneId, lookupHostedZoneId.
  destruct (normalizeDomain args) as [[cfg|e]|]; try reflexivity.
  rewrite value_bind. simpl.
  destruct (DomainConfig.hostedZoneId cfg) as [id|]; try reflexivity.
  destruct (truthy id); reflexivity.
Qed.

(** When the normalized domain is rejected, the constructor requests a
    certificate and a distribution and nothing else; every argument of the
    certificate, and the alias list computed for the distribution, carry
    the rejection. *)
Lemma constructor_rejected (args : CdnArgs.t) (e : Exn) :
  normalizeDomain args = Some (Rejected e) ->
  let c := new_Cdn args in
  let certArgs :=
    DnsValidatedCertificateArgs.mk (Rejected e) (Rejected e) (Rejected e) in
  let certificate :=
    CertificateHandle.mk
      (DnsValidatedCertificate_certificateArn (name +:+ "Ssl") certArgs) in
  let distDefaults :=
    distributionDefaults (Some (Rejected e)) (Some certificate) in
  the_zoneId args = Some (Rejected e)
  /\ domainUrl (value c) = Some (Rejected e)
  /\ DistributionArgs.aliases distDefaults = Async (Rejected e)
  /\ requests c
     = [DnsValidatedCertificate (name +:+ "Ssl") certArgs "us-east-1";
        Distribution (name +:+ "Distribution")
          (transform (CdnArgs.transform_distribution args) distDefaults)].
Proof.
  intros H. simpl.
  rewrite zoneId_eq, constructor_domainUrl, constructor_requests.
  rewrite zoneId_eq, H. simpl. repeat split; reflexivity.
Qed.

Lemma rejected_requests_blocked (args : CdnArgs.t) (e : Exn) :
  normalizeDomain args = Some (Rejected e) ->
  (forall a, DistributionArgs.aliases
               (transform (CdnArgs.transform_distribution args) a)
             = DistributionArgs.aliases a) ->
  forallb blocked (requests (new_Cdn args)) = true.
Proof.
  intros H Hkeep.
  destruct (constructor_rejected args e H) as (_ & _ & Ha & ->).
  cbn [forallb blocked]. rewrite Hkeep, Ha. reflexivity.
Qed.

(** What a rejected normalized domain means for the whole construction. *)
Lemma rejected_construction (args : CdnArgs.t) (e : Exn) :
  normalizeDomain args = Some (Rejected e) ->
  let c := new_Cdn args in
  the_zoneId args = Some (Rejected e)
  /\ domainUrl (value c) = Some (Rejected e)
  /\ List.filter (fun r => is_lookup r || is_record r || is_redirect r)
       (requests c) = []
  /\ (exists certArgs distDefaults,
         requests c
         = [DnsValidatedCertificate (name +:+ "Ssl") certArgs "us-east-1";
            Distribution (name +:+ "Distribution")
              (transform (CdnArgs.transform_distribution args) distDefaults)]
         /\ certArgs
            = DnsValidatedCertificateArgs.mk
                (Rejected e) (Rejected e) (Rejected e)
         /\ DistributionArgs.aliases distDefaults = Async (Rejected e))
  /\ ((forall a, DistributionArgs.aliases
                   (transform (CdnArgs.transform_distribution args) a)
                 = DistributionArgs.aliases a) ->
      forallb blocked (requests c) = true).
Proof.
  intros H c.
  destruct (constructor_rejected args e H) as (Hz & Hu & Ha & Hr).
  fold c in Hu, Hr.
  split; [exact Hz|]. split; [exact Hu|].
  split; [rewrite Hr; reflexivity|].
  split.
  - eexists _, _. split; [exact Hr|]. split; [reflexivity|exact Ha].
  - intros Hkeep. apply rejected_requests_blocked with (e := e); assumption.
Qed.

(** C2, amended.  A structured domain descriptor without [domainName]
    makes the construction fail with the error
    [Missing "domainName" for domain.]: the normalized domain, the zone id
    and [domainUrl] are rejected with it, and no zone lookup, DNS record
    or redirect is requested.  The throw does not stop the constructor,
    though: the certificate and the distribution are still requested, the
    certificate with every argument rejected and the distribution with
    the transform applied to an argument set whose alias list is
    rejected. *)
Theorem missing_domainName_fails (args : CdnArgs.t) (i : Input DomainValue)
    (d : CdnDomainArgs.t) :
  CdnArgs.domain args = Some i ->
  output i = Resolved (DomainObject d) ->
  CdnDomainArgs.domainName d = None ->
  let c := new_Cdn args in
  let e := Error missing_domainName_message in
  normalizeDomain args = Some (Rejected e)
  /\ the_zoneId args = Some (Rejected e)
  /\ domainUrl (value c) = Some (Rejected e)
  /\ List.filter (fun r => is_lookup r || is_record r || is_redirect r)
       (requests c) = []
  /\ (exists certArgs distDefaults,
         requests c
         = [DnsValidatedCertificate (name +:+ "Ssl") certArgs "us-east-1";
            Distribution (name +:+ "Distribution")
              (transform (CdnArgs.transform_distribution args) distDefaults)]
         /\ certArgs
            = DnsValidatedCertificateArgs.mk
                (Rejected e) (Rejected e) (Rejected e)
         /\ DistributionArgs.aliases distDefaults = Async (Rejected e)).
Proof.
  intros Hdom Hout Hname c e.
  assert (Hn : normalizeDomain args = Some (Rejected e)).
  { rewrite (normalizeDomain_Some args i Hdom (descriptor_truthy i d Hout)).
    rewrite Hout. cbn [Output_then].
    rewrite callback_missing_domainName; [reflexivity|].
    rewrite Hname. reflexivity. }
  destruct (rejected_construction args e Hn) as (Hz & Hu & Hf & Hr & _).
  split; [exact Hn|]. split; [exact Hz|]. split; [exact Hu|].
  split; [exact Hf|exact Hr].
Qed.

(** C1, amended.  A structured domain descriptor whose [hostedZone] and
    [hostedZoneId] are both non-empty makes the construction fail with a
    descriptive error ([Do not set both "hostedZone" and "hostedZoneId".],
    or the missing-[domainName] error when that check fires first): the
    normalized domain, the zone id and [domainUrl] are rejected with it,
    and no zone lookup, DNS record or redirect is requested.  The throw
    does not stop the constructor, though: the certificate and the
    distribution are still requested, the certificate with every argument
    rejected and the distribution with the transform applied to an
    argument set whose alias list is rejected. *)
Theorem both_zone_fields_fail (args : CdnArgs.t) (i : Input DomainValue)
    (d : CdnDomainArgs.t) (zoneName id : string) :
  CdnArgs.domain args = Some i ->
  output i = Resolved (DomainObject d) ->
  CdnDomainArgs.hostedZone d = Some zoneName -> zoneName <> EmptyString ->
  CdnDomainArgs.hostedZoneId d = Some id -> id <> EmptyString ->
  let c := new_Cdn args in
  let e :=
    Error (if truthy_opt (CdnDomainArgs.domainName d)
           then both_hostedZone_message
           else missing_domainName_message) in
  normalizeDomain args = Some (Rejected e)
  /\ the_zoneId args = Some (Rejected e)
  /\ domainUrl (value c) = Some (Rejected e)
  /\ List.filter (fun r => is_lookup r || is_record r || is_redirect r)
       (requests c) = []
  /\ (exists certArgs distDefaults,
         requests c
         = [DnsValidatedCertificate (name +:+ "Ssl") certArgs "us-east-1";
            Distribution (name +:+ "Distribution")
              (transform (CdnArgs.transform_distribution args) distDefaults)]
         /\ certArgs
            = DnsValidatedCertificateArgs.mk
                (Rejected e) (Rejected e) (Rejected e)
         /\ DistributionArgs.aliases distDefaults = Async (Rejected e)).
Proof.
  intros Hdom Hout Hz Hzne Hid Hidne c e.
  apply truthy_nonempty in Hzne, Hidne.
  assert (Hn : normalizeDomain args = Some (Rejected e)).
  { rewrite (normalizeDomain_Some args i Hdom (descriptor_truthy i d Hout)).
    rewrite Hout. cbn [Output_then]. subst e.
    destruct (truthy_opt (CdnDomainArgs.domainName d)) eqn:Hname.
    - rewrite callback_both_zone_fields; [reflexivity|exact Hname| |].
      + rewrite Hz. exact Hzne.
      + rewrite Hid. exact Hidne.
    - rewrite callback_missing_domainName; [reflexivity|exact Hname]. }
  destruct (rejected_construction args e Hn) as (Hzone & Hu & Hf & Hr & _).
  split; [exact Hn|]. split; [exact Hzone|]. split; [exact Hu|].
  split; [exact Hf|exact Hr].
Qed.

(** *** The steps on a resolved domain *)

Lemma lookup_requests (cfg : DomainConfig.t) :
  requests (lookupHostedZoneId HostedZoneLookup_zoneId name
              (Some (Resolved cfg)))
  = if truthy_opt (DomainConfig.hostedZoneId cfg) then []
    else [HostedZoneLookup (name +:+ "HostedZoneLookup")
            (nullish (DomainConfig.hostedZone cfg)
               (DomainConfig.domainName cfg))].
Proof.
  unfold lookupHostedZoneId. rewrite requests_bind. simpl.
  destruct (DomainConfig.hostedZoneId cfg) as [id|]; simpl.
  - destruct (truthy id); reflexivity.
  - reflexivity.
Qed.

Lemma createSsl_requests (domain : Output DomainConfig.t)
    (zone : Output string) :
  requests (createSsl DnsValidatedCertificate_certificateArn name
              (Some domain) (Some zone))
  = [DnsValidatedCertificate (name +:+ "Ssl")
       (DnsValidatedCertificateArgs.mk
          (lift DomainConfig.domainName domain)
          (lift DomainConfig.aliases domain) zone)
       "us-east-1"].
Proof. reflexivity. Qed.

Lemma createDistribution_requests (args : CdnArgs.t)
    (domain : option (Output DomainConfig.t))
    (certificate : option CertificateHandle.t) :
  requests (createDistribution Distribution_domainName
              Distribution_hostedZoneId name args domain certificate)
  = [Distribution (name +:+ "Distribution")
       (transform (CdnArgs.transform_distribution args)
          (distributionDefaults domain certificate))].
Proof. reflexivity. Qed.

Lemma records_requests (cfg : DomainConfig.t) (zone : Output string)
    (distribution : DistributionHandle.t) :
  requests (createRoute53Records sanitizeToPascalCase name
              (Some (Resolved cfg)) (Some zone) distribution)
  = match DomainConfig.aliases cfg with
    | Some al =>
        flat_map (fun recordName =>
                    [dnsRecord sanitizeToPascalCase name zone distribution
                       recordName "A";
                     dnsRecord sanitizeToPascalCase name zone distribution
                       recordName "AAAA"])
          (DomainConfig.domainName cfg :: al)
    | None => []
    end.
Proof.
  unfold createRoute53Records. cbn [defined negb orb].
  rewrite requests_bind.
  cbn [output Output_apply cons_spread].
  destruct (DomainConfig.aliases cfg) as [al|]; [|reflexivity].
  unfold cons_spread.
  rewrite requests_bind, requests_for_of.
  cbn [ret requests snd]. rewrite !app_nil_r.
  apply flat_map_ext. intros recordName. reflexivity.
Qed.

Lemma redirects_requests (cfg : DomainConfig.t) (zone : Output string) :
  requests (createRedirects name (Some (Resolved cfg)) (Some zone))
  = match DomainConfig.redirects cfg with
    | Some (r :: rs) =>
        [HttpsRedirect (name +:+ "Redirect")
           (HttpsRedirectArgs.mk zone (r :: rs)
              (DomainConfig.domainName cfg))]
    | _ => []
    end.
Proof.
  unfold createRedirects. cbn [defined negb orb].
  rewrite requests_bind. simpl.
  destruct (DomainConfig.redirects cfg) as [[|r rs]|]; reflexivity.
Qed.

(** The whole log on a resolved domain. *)
Lemma constructor_resolved (args : CdnArgs.t) (cfg : DomainConfig.t)
    (zone : Output string) :
  normalizeDomain args = Some (Resolved cfg) ->
  the_zoneId args = Some zone ->
  let domain := Some (Resolved cfg) in
  let certificate :=
    value (createSsl DnsValidatedCertificate_certificateArn name domain
             (Some zone)) in
  requests (new_Cdn args)
  = requests (lookupHostedZoneId HostedZoneLookup_zoneId name domain)
    ++ requests (createSsl DnsValidatedCertificate_certificateArn name
                   domain (Some zone))
    ++ requests (createDistribution Distribution_domainName
                   Distribution_hostedZoneId name args domain certificate)
    ++ requests (createRoute53Records sanitizeToPascalCase name domain
                   (Some zone) (Cdn.distribution (value (new_Cdn args))))
    ++ requests (createRedirects name domain (Some zone)).
Proof.
  intros Hn Hz domain certificate.
  rewrite constructor_requests, constructor_distribution, Hn, Hz.
  reflexivity.
Qed.

Lemma filter_dnsRecords_nil (p : Request -> bool) (zone : Output string)
    (distribution : DistributionHandle.t) (names : list string) :
  (forall n a, p (Route53Record n a) = false) ->
  List.filter p
    (flat_map (fun recordName =>
                 [dnsRecord sanitizeToPascalCase name zone distribution
                    recordName "A";
                  dnsRecord sanitizeToPascalCase name zone distribution
                    recordName "AAAA"]) names) = [].
Proof.
  intros Hp.
  induction names as [|n rest IH]; [reflexivity|].
  cbn [flat_map]. rewrite List.filter_app, IH.
  unfold dnsRecord. cbn [List.filter]. rewrite !Hp. reflexivity.
Qed.

Lemma filter_records_dnsRecords (zone : Output string)
    (distribution : DistributionHandle.t) (names : list string) :
  let records :=
    flat_map (fun recordName =>
                [dnsRecord sanitizeToPascalCase name zone distribution
                   recordName "A";
                 dnsRecord sanitizeToPascalCase name zone distribution
                   recordName "AAAA"]) names in
  List.filter is_record records = records
  /\ length records = 2 * length names.
Proof.
  induction names as [|n rest [IHf IHl]]; simpl.
  - split; reflexivity.
  - split.
    + simpl in IHf. rewrite IHf. reflexivity.
    + simpl in IHl. rewrite IHl. lia.
Qed.

(** X17.  For a configured domain whose aliases are a list [al] and an
    available zone id, the DNS records requested are exactly, for each name of
    [domainName :: al] in turn, one record of type A and one of type AAAA:
    [2 * (length al + 1)] records, each carrying the zone id and a single
    alias target made of the distribution's domain name and hosted zone id
    with [evaluateTargetHealth] set. *)
Theorem dns_records (args : CdnArgs.t) (cfg : DomainConfig.t)
    (al : list string) (z : string) :
  normalizeDomain args = Some (Resolved cfg) ->
  DomainConfig.aliases cfg = Some al ->
  the_zoneId args = Some (Resolved z) ->
  let c := new_Cdn args in
  let distribution := Cdn.distribution (value c) in
  let target :=
    RecordAlias.mk (DistributionHandle.domainName distribution)
      (DistributionHandle.hostedZoneId distribution) true in
  let record (recordName type : string) :=
    Route53Record
      (name +:+ type +:+ "Record" +:+ sanitizeToPascalCase recordName)
      (RecordArgs.mk recordName (Resolved z) type [target]) in
  List.filter is_record (requests c)
  = flat_map (fun recordName =>
                [record recordName "A"; record recordName "AAAA"])
      (DomainConfig.domainName cfg :: al)
  /\ length (List.filter is_record (requests c)) = 2 * (length al + 1).
Proof.
  intros Hn Hal Hz c distribution target record.
  assert (Hf : List.filter is_record (requests c)
               = flat_map (fun recordName =>
                             [record recordName "A"; record recordName "AAAA"])
                   (DomainConfig.domainName cfg :: al)).
  { unfold c.
    rewrite (constructor_resolved args cfg (Resolved z) Hn Hz).
    rewrite lookup_requests, createSsl_requests, createDistribution_requests,
      records_requests, redirects_requests, Hal.
    rewrite !List.filter_app.
    destruct (filter_records_dnsRecords (Resolved z) distribution
                (DomainConfig.domainName cfg :: al)) as [Hrec _].
    fold c. fold distribution. rewrite Hrec.
    destruct (truthy_opt (DomainConfig.hostedZoneId cfg));
      destruct (DomainConfig.redirects cfg) as [[|r rs]|];
      cbn [List.filter is_record app]; rewrite ?app_nil_r; reflexivity. }
  split; [exact Hf|].
  rewrite Hf.
  destruct (filter_records_dnsRecords (Resolved z) distribution
              (DomainConfig.domainName cfg :: al)) as [_ Hlen].
  unfold record, target. unfold dnsRecord in Hlen. rewrite Hlen.
  simpl length. lia.
Qed.

(** C7.  For a configured domain with redirect list [rs] and an available
    zone id: when [rs] is not empty exactly one redirect is requested, from
    all of [rs] to the primary domain name; when [rs] is empty none is. *)
Theorem redirect_resource (args : CdnArgs.t) (cfg : DomainConfig.t)
    (rs : list string) (z : string) :
  normalizeDomain args = Some (Resolved cfg) ->
  DomainConfig.redirects cfg = Some rs ->
  the_zoneId args = Some (Resolved z) ->
  List.filter is_redirect (requests (new_Cdn args))
  = match rs with
    | [] => []
    | _ :: _ =>
        [HttpsRedirect (name +:+ "Redirect")
           (HttpsRedirectArgs.mk (Resolved z) rs
              (DomainConfig.domainName cfg))]
    end.
Proof.
  intros Hn Hrs Hz.
  rewrite (constructor_resolved args cfg (Resolved z) Hn Hz).
  rewrite lookup_requests, createSsl_requests, createDistribution_requests,
    records_requests, redirects_requests, Hrs.
  rewrite !List.filter_app.
  assert (Hrec := fun names =>
    filter_dnsRecords_nil is_redirect (Resolved z)
      (Cdn.distribution (value (new_Cdn args))) names
      (fun _ _ => eq_refl)).
  destruct (DomainConfig.aliases cfg) as [al|]; rewrite ?Hrec;
    destruct (truthy_opt (DomainConfig.hostedZoneId cfg));
    destruct rs as [|r rs']; reflexivity.
Qed.

Lemma lookups_resolved (args : CdnArgs.t) (cfg : DomainConfig.t) :
  normalizeDomain args = Some (Resolved cfg) ->
  List.filter is_lookup (requests (new_Cdn args))
  = requests (lookupHostedZoneId HostedZoneLookup_zoneId name
                (Some (Resolved cfg))).
Proof.
  intros Hn.
  destruct (the_zoneId args) as [zone|] eqn:Hz.
  2:{ rewrite zoneId_eq, Hn in Hz. discriminate. }
  rewrite (constructor_resolved args cfg zone Hn Hz).
  rewrite lookup_requests, createSsl_requests, createDistribution_requests,
    records_requests, redirects_requests.
  rewrite !List.filter_app.
  assert (Hrec := fun names =>
    filter_dnsRecords_nil is_lookup zone
      (Cdn.distribution (value (new_Cdn args))) names
      (fun _ _ => eq_refl)).
  destruct (DomainConfig.aliases cfg) as [al|]; rewrite ?Hrec;
    destruct (truthy_opt (DomainConfig.hostedZoneId cfg));
    destruct (DomainConfig.redirects cfg) as [[|r rs]|]; reflexivity.
Qed.

(** C5, amended.  With a non-empty [hostedZoneId] no zone lookup is
    requested and the zone id is that id, unchanged.  Otherwise
    ([hostedZoneId] missing or empty) exactly one lookup is requested, by
    [hostedZone] when that field is present and by [domainName] when it is
    not, and the zone id is the answer of that lookup. *)
Theorem hostedZoneId_or_lookup (args : CdnArgs.t) (cfg : DomainConfig.t) :
  normalizeDomain args = Some (Resolved cfg) ->
  let lookups := List.filter is_lookup (requests (new_Cdn args)) in
  let lookupName := name +:+ "HostedZoneLookup" in
  let lookupDomain :=
    match DomainConfig.hostedZone cfg with
    | Some zoneName => zoneName
    | None => DomainConfig.domainName cfg
    end in
  (forall id,
      DomainConfig.hostedZoneId cfg = Some id -> id <> EmptyString ->
      the_zoneId args = Some (Resolved id) /\ lookups = [])
  /\ (truthy_opt (DomainConfig.hostedZoneId cfg) = false ->
      the_zoneId args
      = Some (HostedZoneLookup_zoneId lookupName lookupDomain)
      /\ lookups = [HostedZoneLookup lookupName lookupDomain]).
Proof.
  intros Hn lookups lookupName lookupDomain. subst lookups.
  rewrite (lookups_resolved args cfg Hn), lookup_requests.
  rewrite zoneId_eq, Hn. cbn [Output_then].
  split.
  - intros id Hid Hne. rewrite Hid. cbn [truthy_opt].
    apply truthy_nonempty in Hne. rewrite Hne. split; reflexivity.
  - intros Hfalse. rewrite Hfalse.
    destruct (DomainConfig.hostedZoneId cfg) as [id|]; simpl in Hfalse.
    + rewrite Hfalse. split; reflexivity.
    + split; reflexivity.
Qed.

(** C4.  Without a [domain] argument the only request is the distribution
    (with an empty alias list and the default certificate): no
    certificate, DNS record, redirect or zone lookup; [domainUrl] is
    undefined and [url] is the https URL of the distribution's own domain
    name. *)
Theorem domain_absent (args : CdnArgs.t) :
  CdnArgs.domain args = None ->
  let c := new_Cdn args in
  let distName := name +:+ "Distribution" in
  let distArgs :=
    transform (CdnArgs.transform_distribution args)
      (DistributionArgs.mk
         (DefaultCacheBehavior.mk [] [] "placeholder" "redirect-to-https")
         true []
         (Restrictions.mk (GeoRestriction.mk "none"))
         (Plain [])
         (ViewerCertificate.mk None None (Some true))) in
  requests c = [Distribution distName distArgs]
  /\ List.filter (fun r => is_certificate r || is_record r || is_redirect r
                           || is_lookup r) (requests c) = []
  /\ domainUrl (value c) = None
  /\ url (value c)
     = interpolate "https://" (Distribution_domainName distName distArgs).
Proof.
  intros Hd c distName distArgs.
  assert (Hn : normalizeDomain args = None).
  { apply normalizeDomain_None. rewrite Hd. reflexivity. }
  assert (Hr : requests c = [Distribution distName distArgs]).
  { unfold c. rewrite constructor_requests, zoneId_eq, Hn. reflexivity. }
  split; [exact Hr|]. split; [rewrite Hr; reflexivity|]. split.
  - unfold c. rewrite constructor_domainUrl, Hn. reflexivity.
  - unfold url, c. rewrite constructor_distribution, zoneId_eq, Hn.
    reflexivity.
Qed.

(** The three guarded steps do nothing when their guard holds. *)
Lemma guarded_steps_skipped (domain : option (Output DomainConfig.t))
    (zone : option (Output string)) (distribution : DistributionHandle.t) :
  negb (defined domain) || negb (defined zone) = true ->
  createSsl DnsValidatedCertificate_certificateArn name domain zone = ret None
  /\ createRoute53Records sanitizeToPascalCase name domain zone distribution
     = ret tt
  /\ createRedirects name domain zone = ret tt.
Proof.
  destruct domain as [d|], zone as [z|]; simpl; intros H;
    try discriminate; (split; [|split]); reflexivity.
Qed.

Lemma records_resolved (args : CdnArgs.t) (cfg : DomainConfig.t)
    (zone : Output string) :
  normalizeDomain args = Some (Resolved cfg) ->
  the_zoneId args = Some zone ->
  List.filter is_record (requests (new_Cdn args))
  = requests (createRoute53Records sanitizeToPascalCase name
                (Some (Resolved cfg)) (Some zone)
                (Cdn.distribution (value (new_Cdn args)))).
Proof.
  intros Hn Hz.
  rewrite (constructor_resolved args cfg zone Hn Hz).
  rewrite lookup_requests, createSsl_requests, createDistribution_requests,
    records_requests, redirects_requests.
  rewrite !List.filter_app.
  destruct (DomainConfig.aliases cfg) as [al|].
  - destruct (filter_records_dnsRecords zone
                (Cdn.distribution (value (new_Cdn args)))
                (DomainConfig.domainName cfg :: al)) as [Hrec _].
    rewrite Hrec.
    destruct (truthy_opt (DomainConfig.hostedZoneId cfg));
      destruct (DomainConfig.redirects cfg) as [[|r rs]|];
      cbn [List.filter is_record app]; rewrite ?app_nil_r; reflexivity.
  - destruct (truthy_opt (DomainConfig.hostedZoneId cfg));
      destruct (DomainConfig.redirects cfg) as [[|r rs]|]; reflexivity.
Qed.

Lemma redirects_resolved (args : CdnArgs.t) (cfg : DomainConfig.t)
    (zone : Output string) :
  normalizeDomain args = Some (Resolved cfg) ->
  the_zoneId args = Some zone ->
  List.filter is_redirect (requests (new_Cdn args))
  = requests (createRedirects name (Some (Resolved cfg)) (Some zone)).
Proof.
  intros Hn Hz.
  rewrite (constructor_resolved args cfg zone Hn Hz).
  rewrite lookup_requests, createSsl_requests, createDistribution_requests,
    records_requests, redirects_requests.
  rewrite !List.filter_app.
  assert (Hrec := fun names =>
    filter_dnsRecords_nil is_redirect zone
      (Cdn.distribution (value (new_Cdn args))) names
      (fun _ _ => eq_refl)).
  destruct (DomainConfig.aliases cfg) as [al|]; rewrite ?Hrec;
    destruct (truthy_opt (DomainConfig.hostedZoneId cfg));
    destruct (DomainConfig.redirects cfg) as [[|r rs]|]; reflexivity.
Qed.

(** C10.  The zone id is defined exactly when the domain is, that is
    exactly when [args.domain] is truthy; it is then the explicit
    [hostedZoneId] or the answer of a lookup.  Hence the guard of the
    certificate, DNS-record and redirect steps holds exactly when no
    domain is configured.  Without a domain the three steps return at
    once and the log holds no certificate, record, redirect or zone
    lookup.  With a domain none of them is skipped: the certificate is
    always requested, and on a resolved domain the record step requests
    the A and AAAA records of [domainName :: aliases] and the redirect
    step the redirect of a non-empty redirect list. *)
Theorem zone_iff_domain (args : CdnArgs.t) :
  let domain := normalizeDomain args in
  let zone := the_zoneId args in
  let c := new_Cdn args in
  (zone = None <-> domain = None)
  /\ (domain = None <-> domain_truthy (CdnArgs.domain args) = false)
  /\ (forall d, domain = Some d ->
        zone
        = Some (Output_then d (fun cfg =>
                  let found :=
                    HostedZoneLookup_zoneId (name +:+ "HostedZoneLookup")
                      (nullish (DomainConfig.hostedZone cfg)
                         (DomainConfig.domainName cfg)) in
                  match DomainConfig.hostedZoneId cfg with
                  | Some id => if truthy id then Resolved id else found
                  | None => found
                  end)))
  /\ negb (defined domain) || negb (defined zone)
     = negb (domain_truthy (CdnArgs.domain args))
  /\ (domain = None ->
      createSsl DnsValidatedCertificate_certificateArn name domain zone
      = ret None
      /\ createRoute53Records sanitizeToPascalCase name domain zone
           (Cdn.distribution (value c)) = ret tt
      /\ createRedirects name domain zone = ret tt)
  /\ (domain = None ->
      List.filter (fun r => is_certificate r || is_record r || is_redirect r
                            || is_lookup r) (requests c) = [])
  /\ (forall d z, domain = Some d -> zone = Some z ->
        List.filter is_certificate (requests c)
        = [DnsValidatedCertificate (name +:+ "Ssl")
             (DnsValidatedCertificateArgs.mk
                (lift DomainConfig.domainName d)
                (lift DomainConfig.aliases d) z)
             "us-east-1"])
  /\ (forall cfg al z,
        domain = Some (Resolved cfg) -> zone = Some z ->
        DomainConfig.aliases cfg = Some al ->
        requests (createRoute53Records sanitizeToPascalCase name domain zone
                    (Cdn.distribution (value c)))
        = flat_map (fun recordName =>
                      [dnsRecord sanitizeToPascalCase name z
                         (Cdn.distribution (value c)) recordName "A";
                       dnsRecord sanitizeToPascalCase name z
                         (Cdn.distribution (value c)) recordName "AAAA"])
            (DomainConfig.domainName cfg :: al)
        /\ List.filter is_record (requests c)
           = requests (createRoute53Records sanitizeToPascalCase name domain
                         zone (Cdn.distribution (value c))))
  /\ (forall cfg r rs z,
        domain = Some (Resolved cfg) -> zone = Some z ->
        DomainConfig.redirects cfg = Some (r :: rs) ->
        requests (createRedirects name domain zone)
        = [HttpsRedirect (name +:+ "Redirect")
             (HttpsRedirectArgs.mk z (r :: rs)
                (DomainConfig.domainName cfg))]
        /\ List.filter is_redirect (requests c)
           = requests (createRedirects name domain zone)).
Proof.
  intros domain zone c.
  assert (Hz := zoneId_eq args). fold zone domain in Hz.
  assert (Ht := normalizeDomain_None args). fold domain in Ht.
  split; [|split; [|split; [|split; [|split; [|split; [|split; [|split]]]]]]].
  - rewrite Hz. destruct domain; split; congruence.
  - exact Ht.
  - intros d Hd. rewrite Hz, Hd. reflexivity.
  - rewrite Hz. destruct domain as [d|].
    + destruct (domain_truthy (CdnArgs.domain args)); [reflexivity|].
      destruct Ht as [_ Ht]. discriminate (Ht eq_refl).
    + destruct Ht as [Ht _]. rewrite (Ht eq_refl). reflexivity.
  - intros Hd. apply guarded_steps_skipped. rewrite Hd. reflexivity.
  - intros Hd. unfold c. rewrite constructor_requests.
    fold zone domain. rewrite Hz, Hd. reflexivity.
  - intros d z Hd Hzone. unfold c.
    destruct d as [cfg|e].
    + rewrite (constructor_resolved args cfg z Hd Hzone).
      rewrite lookup_requests, createSsl_requests,
        createDistribution_requests, records_requests, redirects_requests.
      rewrite !List.filter_app.
      assert (Hrec := fun names =>
        filter_dnsRecords_nil is_certificate z
          (Cdn.distribution (value (new_Cdn args))) names
          (fun _ _ => eq_refl)).
      destruct (DomainConfig.aliases cfg) as [al|]; rewrite ?Hrec;
        destruct (truthy_opt (DomainConfig.hostedZoneId cfg));
        destruct (DomainConfig.redirects cfg) as [[|r rs]|]; reflexivity.
    + destruct (constructor_rejected args e Hd) as (Hze & _ & _ & ->).
      fold zone in Hze. rewrite Hzone in Hze. injection Hze as ->.
      reflexivity.
  - intros cfg al z Hd Hzone Hal. unfold c. rewrite Hd, Hzone. split.
    + rewrite records_requests, Hal. reflexivity.
    + exact (records_resolved args cfg z Hd Hzone).
  - intros cfg r rs z Hd Hzone Hrs. unfold c. rewrite Hd, Hzone. split.
    + rewrite redirects_requests, Hrs. reflexivity.
    + exact (redirects_resolved args cfg z Hd Hzone).
Qed.

End ConstructorProperties.

(** ** The normalizer, continued *)

(** C6, amended.  A non-empty bare string [d] is normalized to exactly
    [{ domainName: d, aliases: [], redirects: [] }]. *)
Theorem bare_string_normalized (d : string)
    (t : Transform DistributionArgs.t) :
  d <> EmptyString ->
  normalizeDomain (CdnArgs.mk (Some (Plain (DomainString d))) t)
  = Some (Resolved (DomainConfig.mk d (Some []) (Some []) None None)).
Proof.
  intros Hne. apply truthy_nonempty in Hne.
  unfold normalizeDomain. simpl. rewrite Hne. reflexivity.
Qed.

(** A string that arrives through a promise or an Output is normalized
    whatever it is. *)
Lemma async_string_normalized (d : string)
    (t : Transform DistributionArgs.t) :
  normalizeDomain (CdnArgs.mk (Some (Async (Resolved (DomainString d)))) t)
  = Some (Resolved (DomainConfig.mk d (Some []) (Some []) None None)).
Proof. reflexivity. Qed.

Lemma spread_over_as_args {A : Type} (dflt : A) (o : option A) :
  spread_over dflt (match o with Some l => Given l | None => Undefined end)
  = o.
Proof. destruct o; reflexivity. Qed.

(** The normalizer accepts every normalized object that satisfies the
    checks it makes itself, and returns it unchanged. *)
Lemma callback_as_args (cfg : DomainConfig.t) :
  truthy (DomainConfig.domainName cfg) = true ->
  truthy_opt (DomainConfig.hostedZone cfg)
  && truthy_opt (DomainConfig.hostedZoneId cfg) = false ->
  normalizeDomain_callback (DomainObject (DomainConfig.as_args cfg))
  = Resolved cfg.
Proof.
  intros Hn Hz. destruct cfg as [n al rs hz hzid]. simpl in *.
  rewrite Hn, Hz. simpl. rewrite !spread_over_as_args. reflexivity.
Qed.

(** What the normalizer returns passes the zone check again. *)
Lemma callback_zone_exclusive (v : DomainValue) (cfg : DomainConfig.t) :
  normalizeDomain_callback v = Resolved cfg ->
  truthy_opt (DomainConfig.hostedZone cfg)
  && truthy_opt (DomainConfig.hostedZoneId cfg) = false.
Proof.
  destruct v as [s|d]; simpl.
  - intros [= <-]. reflexivity.
  - destruct (CdnDomainArgs.domainName d) as [n|]; [|discriminate].
    destruct (truthy n); simpl; [|discriminate].
    destruct (truthy_opt (CdnDomainArgs.hostedZone d)
              && truthy_opt (CdnDomainArgs.hostedZoneId d)) eqn:E;
      [discriminate|].
    intros [= <-]. exact E.
Qed.

(** C8, amended.  Normalizing an already normalized DomainConfig (an
    object the normalizer returned) whose [domainName] is non-empty
    returns that same object: no field is lost and the [aliases] and
    [redirects] arrays are not touched again. *)
Theorem normalizeDomain_idempotent (v : DomainValue) (cfg : DomainConfig.t)
    (t : Transform DistributionArgs.t) :
  normalizeDomain_callback v = Resolved cfg ->
  DomainConfig.domainName cfg <> EmptyString ->
  normalizeDomain_callback (DomainObject (DomainConfig.as_args cfg))
  = Resolved cfg
  /\ normalizeDomain
       (CdnArgs.mk (Some (Plain (DomainObject (DomainConfig.as_args cfg)))) t)
     = Some (Resolved cfg).
Proof.
  intros Hv Hne.
  assert (H : normalizeDomain_callback
                (DomainObject (DomainConfig.as_args cfg)) = Resolved cfg).
  { apply callback_as_args.
    - apply truthy_nonempty. exact Hne.
    - exact (callback_zone_exclusive v cfg Hv). }
  split; [exact H|].
  unfold normalizeDomain. cbn [CdnArgs.domain domain_truthy negb output
    Output_then]. rewrite H. reflexivity.
Qed.

(** ** The [Resource] proxy *)

(** C9, amended.  When the environment variable [SST_RESOURCE_<name>] holds
    a non-empty text, the lookup is [JSON.parse] of that text (its value,
    or its SyntaxError).  Otherwise (the variable is unset or empty), with
    the link table injected: an entry of the table for the name is
    returned, and a name without entry throws the error ["<name>" is not
    linked]. *)
Theorem Resource_get_lookup (Value : Type) (JSON_parse : string -> option Value)
    (process_env : gmap string string) (links : gmap string Value)
    (prop : string) :
  let envName := "SST_RESOURCE_" +:+ prop in
  (forall text SST_LINKS,
      process_env !! envName = Some text -> text <> EmptyString ->
      Resource_get JSON_parse process_env SST_LINKS prop
      = match JSON_parse text with
        | Some v => Return v
        | None => Throw SyntaxError
        end)
  /\ (truthy_opt (process_env !! envName) = false ->
      forall v, links !! prop = Some v ->
      Resource_get JSON_parse process_env (Some links) prop = Return v)
  /\ (truthy_opt (process_env !! envName) = false ->
      links !! prop = None ->
      Resource_get JSON_parse process_env (Some links) prop
      = Throw (Error (not_linked_message prop))).
Proof.
  intros envName. unfold Resource_get. fold envName.
  split; [|split].
  - intros text SST_LINKS Henv Hne. rewrite Henv.
    apply truthy_nonempty in Hne. rewrite Hne. reflexivity.
  - intros Hfalse v Hv.
    destruct (process_env !! envName) as [text|]; simpl in Hfalse.
    + rewrite Hfalse, Hv. reflexivity.
    + rewrite Hv. reflexivity.
  - intros Hfalse Hv.
    destruct (process_env !! envName) as [text|]; simpl in Hfalse.
    + rewrite Hfalse, Hv. reflexivity.
    + rewrite Hv. reflexivity.
Qed.

(** ** The sample deployment *)

(** [domain: "example.com"]: a certificate for [example.com] without
    alternative names, a distribution with the single alias
    [example.com], and its A and AAAA records. *)
Example scenario_bare_string :
  let c := Sample.new_Cdn (Sample.with_domain (DomainString "example.com")) in
  List.filter is_certificate (requests c)
  = [DnsValidatedCertificate "WebSsl"
       (DnsValidatedCertificateArgs.mk (Resolved "example.com")
          (Resolved (Some [])) (Resolved "Z-example.com"))
       "us-east-1"]
  /\ map (fun r => match r with
                   | Distribution _ a => Some (DistributionArgs.aliases a)
                   | _ => None
                   end)
       (List.filter is_distribution (requests c))
     = [Some (Async (Resolved ["example.com"]))]
  /\ map (fun r => match r with
                   | Route53Record _ a =>
                       Some (RecordArgs.name a, RecordArgs.type a)
                   | _ => None
                   end)
       (List.filter is_record (requests c))
     = [Some ("example.com", "A"); Some ("example.com", "AAAA")]
  /\ domainUrl (value c) = Some (Resolved "https://example.com").
Proof. vm_compute. repeat split. Qed.

(** [domain: { domainName: "app.example.com", hostedZone: "example.com",
    redirects: ["www.example.com"] }]: the zone is looked up by
    [example.com] and [www.example.com] redirects to [app.example.com]. *)
Example scenario_hostedZone_redirect :
  let c :=
    Sample.new_Cdn
      (Sample.with_domain
         (DomainObject
            (CdnDomainArgs.mk (Some "app.example.com")
               (Given ["www.example.com"]) Absent (Some "example.com")
               None))) in
  List.filter is_lookup (requests c)
  = [HostedZoneLookup "WebHostedZoneLookup" "example.com"]
  /\ List.filter is_redirect (requests c)
     = [HttpsRedirect "WebRedirect"
          (HttpsRedirectArgs.mk (Resolved "Z-example.com")
             ["www.example.com"] "app.example.com")].
Proof. vm_compute. repeat split. Qed.

(** [{ domainName: "example.com", aliases: undefined }]: the explicit
    [undefined] overrides the default of the spread, and the later
    [...domain.aliases] throws; no record is requested and the alias list
    of the distribution is rejected. *)
Example scenario_undefined_aliases :
  let c :=
    Sample.new_Cdn
      (Sample.with_domain
         (DomainObject
            (CdnDomainArgs.mk (Some "example.com") Absent Undefined None
               None))) in
  List.filter is_record (requests c) = []
  /\ existsb blocked (List.filter is_distribution (requests c)) = true.
Proof. vm_compute. repeat split. Qed.

(** C1 as stated fails, in two ways.  In
    [{ domainName: "example.com", hostedZone: "", hostedZoneId:
    "Z0123456789ABC" }] both zone fields are set, yet the descriptor is
    accepted, the zone id is the given one and none of the four requests
    (certificate, distribution, two records) is blocked.  And in
    [{ domainName: "app.example.com", hostedZone: "example.com",
    hostedZoneId: "Z0123456789ABC" }] the error is raised, but not before
    any resource: the certificate and the distribution are requested all
    the same, and a transform that sets [aliases] and [viewerCertificate]
    itself leaves the distribution request without a rejected
    argument. *)
Lemma both_zone_fields_counterexample :
  let accepted := Sample.with_domain (DomainObject Sample.empty_hostedZone) in
  let refused := Sample.with_domain (DomainObject Sample.both_zone_fields) in
  let override (a : DistributionArgs.t) : DistributionArgs.t :=
    DistributionArgs.mk (DistributionArgs.defaultCacheBehavior a)
      (DistributionArgs.enabled a) (DistributionArgs.origins a)
      (DistributionArgs.restrictions a) (Plain [])
      (ViewerCertificate.mk None None (Some true)) in
  let overridden :=
    CdnArgs.mk (Some (Plain (DomainObject Sample.both_zone_fields)))
      (Some override) in
  (CdnDomainArgs.hostedZone Sample.empty_hostedZone = Some EmptyString
   /\ CdnDomainArgs.hostedZoneId Sample.empty_hostedZone
      = Some "Z0123456789ABC"
   /\ normalizeDomain accepted
      = Some (Resolved
                (DomainConfig.mk "example.com" (Some []) (Some [])
                   (Some EmptyString) (Some "Z0123456789ABC")))
   /\ Sample.zone accepted = Some (Resolved "Z0123456789ABC")
   /\ length (requests (Sample.new_Cdn accepted)) = 4
   /\ existsb blocked (requests (Sample.new_Cdn accepted)) = false)
  /\ (normalizeDomain refused
      = Some (Rejected (Error both_hostedZone_message))
      /\ map request_name (requests (Sample.new_Cdn refused))
         = ["WebSsl"; "WebDistribution"]
      /\ map is_certificate (requests (Sample.new_Cdn refused))
         = [true; false]
      /\ map is_distribution (requests (Sample.new_Cdn refused))
         = [false; true])
  /\ (normalizeDomain overridden
      = Some (Rejected (Error both_hostedZone_message))
      /\ map blocked
           (List.filter is_distribution
              (requests (Sample.new_Cdn overridden))) = [false]).
Proof. vm_compute. repeat split. Qed.

(** C2 as stated fails: for [{ aliases: ["www.example.com"] }] the error
    is raised, but not before any resource: the certificate and the
    distribution are requested all the same, and a transform that sets
    [aliases] and [viewerCertificate] itself leaves the distribution
    request without a rejected argument. *)
Lemma missing_domainName_counterexample :
  let refused := Sample.with_domain (DomainObject Sample.no_domainName) in
  let override (a : DistributionArgs.t) : DistributionArgs.t :=
    DistributionArgs.mk (DistributionArgs.defaultCacheBehavior a)
      (DistributionArgs.enabled a) (DistributionArgs.origins a)
      (DistributionArgs.restrictions a) (Plain [])
      (ViewerCertificate.mk None None (Some true)) in
  let overridden :=
    CdnArgs.mk (Some (Plain (DomainObject Sample.no_domainName)))
      (Some override) in
  CdnDomainArgs.domainName Sample.no_domainName = None
  /\ (normalizeDomain refused
      = Some (Rejected (Error missing_domainName_message))
      /\ map request_name (requests (Sample.new_Cdn refused))
         = ["WebSsl"; "WebDistribution"]
      /\ map is_certificate (requests (Sample.new_Cdn refused))
         = [true; false]
      /\ map is_distribution (requests (Sample.new_Cdn refused))
         = [false; true])
  /\ (normalizeDomain overridden
      = Some (Rejected (Error missing_domainName_message))
      /\ map blocked
           (List.filter is_distribution
              (requests (Sample.new_Cdn overridden))) = [false]).
Proof. vm_compute. repeat split. Qed.

(** C3 on [{ domainName: "example.com", aliases: undefined }]: the domain
    is configured and validated, it has no alias, and the zone id
    resolves, yet not one DNS record is requested, where two are due (A
    and AAAA for [example.com]).  With the key left out the two records
    are requested. *)
Theorem dns_records_undefined_aliases :
  let undefined_aliases :=
    Sample.with_domain
      (DomainObject
         (CdnDomainArgs.mk (Some "example.com") Absent Undefined None
            None)) in
  let absent_aliases :=
    Sample.with_domain
      (DomainObject
         (CdnDomainArgs.mk (Some "example.com") Absent Absent None None)) in
  (normalizeDomain undefined_aliases
   = Some (Resolved
             (DomainConfig.mk "example.com" None (Some []) None None))
   /\ Sample.zone undefined_aliases = Some (Resolved "Z-example.com")
   /\ List.filter is_record (requests (Sample.new_Cdn undefined_aliases))
      = []
   /\ length
        (List.filter is_record (requests (Sample.new_Cdn undefined_aliases)))
      <> 2 * (0 + 1))
  /\ (normalizeDomain absent_aliases
      = Some (Resolved
                (DomainConfig.mk "example.com" (Some []) (Some []) None
                   None))
      /\ map (fun r => match r with
                       | Route53Record _ a =>
                           Some (RecordArgs.name a, RecordArgs.type a)
                       | _ => None
                       end)
           (List.filter is_record (requests (Sample.new_Cdn absent_aliases)))
         = [Some ("example.com", "A"); Some ("example.com", "AAAA")]).
Proof. vm_compute. repeat split. discriminate. Qed.

(** C8 as stated fails: the empty string handed over through a promise is
    normalized to [{ domainName: "", aliases: [], redirects: [] }], and
    normalizing that object again does not return it but throws the
    missing-[domainName] error. *)
Lemma normalizeDomain_idempotent_counterexample :
  let normalized :=
    DomainConfig.mk EmptyString (Some []) (Some []) None None in
  normalizeDomain
    (CdnArgs.mk (Some (Async (Resolved (DomainString EmptyString)))) None)
  = Some (Resolved normalized)
  /\ normalizeDomain_callback (DomainString EmptyString)
     = Resolved normalized
  /\ normalizeDomain_callback
       (DomainObject (DomainConfig.as_args normalized))
     = Rejected (Error missing_domainName_message)
  /\ normalizeDomain
       (Sample.with_domain (DomainObject (DomainConfig.as_args normalized)))
     = Some (Rejected (Error missing_domainName_message)).
Proof. vm_compute. repeat split. Qed.

(** C5 as stated fails: with [hostedZoneId: ""] the field is set, yet a
    zone lookup by [domainName] is requested and its answer, not the given
    id, becomes the zone id. *)
Lemma empty_hostedZoneId_looked_up :
  let args := Sample.with_domain (DomainObject Sample.empty_hostedZoneId) in
  CdnDomainArgs.hostedZoneId Sample.empty_hostedZoneId = Some EmptyString
  /\ List.filter is_lookup (requests (Sample.new_Cdn args))
     = [HostedZoneLookup "WebHostedZoneLookup" "example.com"]
  /\ Sample.zone args = Some (Resolved "Z-example.com")
  /\ Sample.zone args <> Some (Resolved EmptyString).
Proof. vm_compute. repeat split. discriminate. Qed.

(** C6 as stated fails: the empty bare string is not normalized to
    [{ domainName: d, aliases: [], redirects: [] }] but to [undefined]. *)
Lemma empty_string_not_normalized :
  let args := Sample.with_domain (DomainString EmptyString) in
  normalizeDomain args = None
  /\ normalizeDomain args
     <> Some (Resolved
                (DomainConfig.mk EmptyString (Some []) (Some []) None None)).
Proof. vm_compute. split; [reflexivity|discriminate]. Qed.

(** C9 as stated fails, in two ways.  With [SST_RESOURCE_Bucket] set to
    the empty text, the lookup of [Bucket] does not go through
    [JSON.parse]; it returns the entry of the link table, or throws the
    not-linked error when there is none.  And when no link table was
    injected, a name without a usable variable does not throw the
    not-linked error but a TypeError. *)
Lemma empty_variable_not_parsed :
  let process_env : gmap string string :=
    {[ "SST_RESOURCE_Bucket"%string := EmptyString ]} in
  (process_env !! "SST_RESOURCE_Bucket"%string = Some EmptyString
   /\ Sample.parse EmptyString = None
   /\ Resource_get Sample.parse process_env
        (Some {[ "Bucket"%string := 7 ]}) "Bucket" = Return 7
   /\ Resource_get Sample.parse process_env (Some ∅) "Bucket"
      = Throw (Error (not_linked_message "Bucket")))
  /\ (Resource_get Sample.parse ∅ None "Bucket" = Throw TypeError
      /\ Resource_get Sample.parse ∅ None "Bucket"
         <> Throw (Error (not_linked_message "Bucket"))).
Proof. vm_compute. repeat split. discriminate. Qed.

Lemma missing_domainName_fails_witness :
  let args := Sample.with_domain (DomainObject Sample.no_domainName) in
  CdnDomainArgs.domainName Sample.no_domainName = None
  /\ normalizeDomain args
     = Some (Rejected (Error missing_domainName_message))
  /\ List.filter (fun r => is_lookup r || is_record r || is_redirect r)
       (requests (Sample.new_Cdn args)) = [].
Proof.
  intros args.
  destruct (missing_domainName_fails Sample.sanitize Sample.lookup_zoneId
              Sample.certificateArn Sample.edge_domainName
              Sample.edge_hostedZoneId "Web" args
              (Plain (DomainObject Sample.no_domainName))
              Sample.no_domainName eq_refl eq_refl eq_refl)
    as (Hn & _ & _ & Hf & _).
  split; [reflexivity|]. split; [exact Hn|exact Hf].
Defined.

Lemma both_zone_fields_fail_witness :
  let args := Sample.with_domain (DomainObject Sample.both_zone_fields) in
  CdnDomainArgs.hostedZone Sample.both_zone_fields = Some "example.com"
  /\ CdnDomainArgs.hostedZoneId Sample.both_zone_fields
     = Some "Z0123456789ABC"
  /\ normalizeDomain args = Some (Rejected (Error both_hostedZone_message))
  /\ List.filter (fun r => is_lookup r || is_record r || is_redirect r)
       (requests (Sample.new_Cdn args)) = [].
Proof.
  intros args.
  assert (Hzone : "example.com"%string <> EmptyString) by discriminate.
  assert (Hid : "Z0123456789ABC"%string <> EmptyString) by discriminate.
  destruct (both_zone_fields_fail Sample.sanitize Sample.lookup_zoneId
              Sample.certificateArn Sample.edge_domainName
              Sample.edge_hostedZoneId "Web" args
              (Plain (DomainObject Sample.both_zone_fields))
              Sample.both_zone_fields "example.com" "Z0123456789ABC"
              eq_refl eq_refl eq_refl Hzone eq_refl Hid)
    as (Hn & _ & _ & Hf & _).
  split; [reflexivity|]. split; [reflexivity|]. split; [exact Hn|exact Hf].
Defined.

Lemma dns_records_witness :
  let args := Sample.with_domain (DomainObject Sample.app) in
  normalizeDomain args = Some (Resolved Sample.app_config)
  /\ DomainConfig.aliases Sample.app_config = Some ["api.example.com"]
  /\ Sample.zone args = Some (Resolved "Z-example.com")
  /\ length (List.filter is_record (requests (Sample.new_Cdn args))) = 4.
Proof.
  intros args.
  destruct (dns_records Sample.sanitize Sample.lookup_zoneId
              Sample.certificateArn Sample.edge_domainName
              Sample.edge_hostedZoneId "Web" args Sample.app_config
              ["api.example.com"] "Z-example.com" eq_refl eq_refl eq_refl)
    as [_ Hlen].
  split; [reflexivity|]. split; [reflexivity|]. split; [reflexivity|].
  exact Hlen.
Defined.

Lemma redirect_resource_witness :
  let args := Sample.with_domain (DomainObject Sample.app) in
  normalizeDomain args = Some (Resolved Sample.app_config)
  /\ DomainConfig.redirects Sample.app_config = Some ["www.example.com"]
  /\ Sample.zone args = Some (Resolved "Z-example.com")
  /\ List.filter is_redirect (requests (Sample.new_Cdn args))
     = [HttpsRedirect "WebRedirect"
          (HttpsRedirectArgs.mk (Resolved "Z-example.com")
             ["www.example.com"] "app.example.com")].
Proof.
  intros args.
  split; [reflexivity|]. split; [reflexivity|]. split; [reflexivity|].
  exact (redirect_resource Sample.sanitize Sample.lookup_zoneId
           Sample.certificateArn Sample.edge_domainName
           Sample.edge_hostedZoneId "Web" args Sample.app_config
           ["www.example.com"] "Z-example.com" eq_refl eq_refl eq_refl).
Defined.

Lemma hostedZoneId_or_lookup_witness :
  let args := Sample.with_domain (DomainObject Sample.app) in
  normalizeDomain args = Some (Resolved Sample.app_config)
  /\ truthy_opt (DomainConfig.hostedZoneId Sample.app_config) = false
  /\ Sample.zone args
     = Some (Sample.lookup_zoneId "WebHostedZoneLookup" "example.com")
  /\ List.filter is_lookup (requests (Sample.new_Cdn args))
     = [HostedZoneLookup "WebHostedZoneLookup" "example.com"].
Proof.
  intros args.
  destruct (hostedZoneId_or_lookup Sample.sanitize Sample.lookup_zoneId
              Sample.certificateArn Sample.edge_domainName
              Sample.edge_hostedZoneId "Web" args Sample.app_config eq_refl)
    as [_ Hlookup].
  split; [reflexivity|]. split; [reflexivity|].
  exact (Hlookup eq_refl).
Defined.

Lemma domain_absent_witness :
  let args := CdnArgs.mk None None in
  CdnArgs.domain args = None
  /\ length (requests (Sample.new_Cdn args)) = 1
  /\ domainUrl (value (Sample.new_Cdn args)) = None
  /\ url (value (Sample.new_Cdn args))
     = Resolved "https://d111111abcdef8.cloudfront.net".
Proof.
  intros args.
  destruct (domain_absent Sample.sanitize Sample.lookup_zoneId
              Sample.certificateArn Sample.edge_domainName
              Sample.edge_hostedZoneId "Web" args eq_refl)
    as (Hr & _ & Hd & Hu).
  split; [reflexivity|]. split; [|split].
  - unfold Sample.new_Cdn. rewrite Hr. reflexivity.
  - exact Hd.
  - exact Hu.
Defined.

Lemma bare_string_normalized_witness :
  "example.com"%string <> EmptyString
  /\ normalizeDomain (Sample.with_domain (DomainString "example.com"))
     = Some (Resolved
               (DomainConfig.mk "example.com" (Some []) (Some []) None None)).
Proof.
  assert (Hne : "example.com"%string <> EmptyString) by discriminate.
  split; [exact Hne|].
  exact (bare_string_normalized "example.com" None Hne).
Defined.

Lemma normalizeDomain_idempotent_witness :
  normalizeDomain_callback (DomainObject Sample.app)
  = Resolved Sample.app_config
  /\ DomainConfig.domainName Sample.app_config <> EmptyString
  /\ normalizeDomain_callback
       (DomainObject (DomainConfig.as_args Sample.app_config))
     = Resolved Sample.app_config.
Proof.
  assert (Hne : DomainConfig.domainName Sample.app_config <> EmptyString)
    by discriminate.
  split; [reflexivity|]. split; [exact Hne|].
  exact (proj1 (normalizeDomain_idempotent (DomainObject Sample.app)
                  Sample.app_config None eq_refl Hne)).
Defined.

Lemma Resource_get_lookup_witness :
  let process_env : gmap string string :=
    {[ "SST_RESOURCE_Bucket"%string := "42"%string ]} in
  let links : gmap string nat := {[ "Queue"%string := 7 ]} in
  process_env !! "SST_RESOURCE_Bucket"%string = Some "42"%string
  /\ Resource_get Sample.parse process_env (Some links) "Bucket" = Return 42
  /\ Resource_get Sample.parse process_env (Some links) "Queue" = Return 7
  /\ Resource_get Sample.parse process_env (Some links) "Table"
     = Throw (Error (not_linked_message "Table")).
Proof.
  intros process_env links.
  split; [reflexivity|]. split; [|split].
  - destruct (Resource_get_lookup nat Sample.parse process_env links "Bucket")
      as (Henv & _ & _).
    refine (Henv "42"%string (Some links) eq_refl _). discriminate.
  - destruct (Resource_get_lookup nat Sample.parse process_env links "Queue")
      as (_ & Hlink & _).
    exact (Hlink eq_refl 7 eq_refl).
  - destruct (Resource_get_lookup nat Sample.parse process_env links "Table")
      as (_ & _ & Hmiss).
    exact (Hmiss eq_refl eq_refl).
Defined.

(** * Further properties of the normalizer *)

(** What the callback accepts, field by field. *)
Lemma callback_accepts (d : CdnDomainArgs.t) (cfg : DomainConfig.t) :
  normalizeDomain_callback (DomainObject d) = Resolved cfg ->
  CdnDomainArgs.domainName d = Some (DomainConfig.domainName cfg)
  /\ truthy (DomainConfig.domainName cfg) = true
  /\ truthy_opt (DomainConfig.hostedZone cfg)
     && truthy_opt (DomainConfig.hostedZoneId cfg) = false
  /\ DomainConfig.aliases cfg = spread_over [] (CdnDomainArgs.aliases d)
  /\ DomainConfig.redirects cfg = spread_over [] (CdnDomainArgs.redirects d)
  /\ DomainConfig.hostedZone cfg = CdnDomainArgs.hostedZone d
  /\ DomainConfig.hostedZoneId cfg = CdnDomainArgs.hostedZoneId d.
Proof.
  simpl. destruct (CdnDomainArgs.domainName d) as [n|]; [|discriminate].
  destruct (truthy n) eqn:Hn; simpl; [|discriminate].
  destruct (truthy_opt (CdnDomainArgs.hostedZone d)
            && truthy_opt (CdnDomainArgs.hostedZoneId d)) eqn:E;
    [discriminate|].
  intros [= <-]. simpl. repeat split; assumption.
Qed.

Lemma callback_rejects (v : DomainValue) (e : Exn) :
  normalizeDomain_callback v = Rejected e ->
  e = Error missing_domainName_message
  \/ e = Error both_hostedZone_message.
Proof.
  destruct v as [s|d]; simpl; [discriminate|].
  destruct (CdnDomainArgs.domainName d) as [n|].
  - destruct (truthy n); simpl.
    + destruct (truthy_opt (CdnDomainArgs.hostedZone d)
                && truthy_opt (CdnDomainArgs.hostedZoneId d));
        [|discriminate].
      intros [= <-]. right. reflexivity.
    + intros [= <-]. left. reflexivity.
  - intros [= <-]. left. reflexivity.
Qed.

Lemma normalizeDomain_descriptor (args : CdnArgs.t) (i : Input DomainValue)
    (d : CdnDomainArgs.t) :
  CdnArgs.domain args = Some i ->
  output i = Resolved (DomainObject d) ->
  normalizeDomain args = Some (normalizeDomain_callback (DomainObject d)).
Proof.
  intros Hd Hout.
  rewrite (normalizeDomain_Some args i Hd (descriptor_truthy i d Hout)).
  rewrite Hout. reflexivity.
Qed.

(** X1.  A descriptor is normalized to a value only when its [domainName] is
    non-empty and its two zone fields are not both non-empty; the value
    then carries that [domainName], the given [aliases] and [redirects]
    (the empty list for a missing key, [undefined] for an explicit one)
    and the zone fields unchanged.  Otherwise it is rejected, and only
    ever with one of the two errors of the normalizer. *)
Theorem normalizeDomain_descriptor_outcome (args : CdnArgs.t)
    (i : Input DomainValue) (d : CdnDomainArgs.t) :
  CdnArgs.domain args = Some i ->
  output i = Resolved (DomainObject d) ->
  (forall cfg,
      normalizeDomain args = Some (Resolved cfg) ->
      CdnDomainArgs.domainName d = Some (DomainConfig.domainName cfg)
      /\ DomainConfig.domainName cfg <> EmptyString
      /\ ~ (truthy_opt (DomainConfig.hostedZone cfg) = true
            /\ truthy_opt (DomainConfig.hostedZoneId cfg) = true)
      /\ DomainConfig.aliases cfg
         = match CdnDomainArgs.aliases d with
           | Absent => Some []
           | Undefined => None
           | Given l => Some l
           end
      /\ DomainConfig.redirects cfg
         = match CdnDomainArgs.redirects d with
           | Absent => Some []
           | Undefined => None
           | Given l => Some l
           end
      /\ DomainConfig.hostedZone cfg = CdnDomainArgs.hostedZone d
      /\ DomainConfig.hostedZoneId cfg = CdnDomainArgs.hostedZoneId d)
  /\ (forall e,
        normalizeDomain args = Some (Rejected e) ->
        e = Error missing_domainName_message
        \/ e = Error both_hostedZone_message)
  /\ normalizeDomain args <> None.
Proof.
  intros Hd Hout.
  rewrite (normalizeDomain_descriptor args i d Hd Hout).
  split; [|split].
  - intros cfg [= Hcb].
    destruct (callback_accepts d cfg Hcb)
      as (Hname & Ht & Hz & Hal & Hrs & Hhz & Hid).
    split; [exact Hname|]. split; [apply truthy_nonempty; exact Ht|].
    split.
    { intros [H1 H2]. rewrite H1, H2 in Hz. discriminate. }
    split; [exact Hal|]. split; [exact Hrs|]. split; assumption.
  - intros e [= Hcb]. exact (callback_rejects (DomainObject d) e Hcb).
  - discriminate.
Qed.

(** * Further properties of the constructor *)

Section ConstructorLog.

Variable sanitizeToPascalCase : string -> string.
Variable HostedZoneLookup_zoneId : string -> string -> Output string.
Variable DnsValidatedCertificate_certificateArn :
  string -> DnsValidatedCertificateArgs.t -> Output string.
Variable Distribution_domainName : string -> DistributionArgs.t -> Output string.
Variable Distribution_hostedZoneId : string -> DistributionArgs.t -> Output string.
Variable name : string.

Abbreviation new_Cdn :=
  (constructor sanitizeToPascalCase HostedZoneLookup_zoneId
     DnsValidatedCertificate_certificateArn Distribution_domainName
     Distribution_hostedZoneId name).
Abbreviation the_zoneId := (zoneId HostedZoneLookup_zoneId name).

(** The zone id of a resolved domain. *)
Abbreviation zone_of cfg :=
  (match DomainConfig.hostedZoneId cfg with
   | Some id =>
       if truthy id then Resolved id
       else HostedZoneLookup_zoneId (name +:+ "HostedZoneLookup")
              (nullish (DomainConfig.hostedZone cfg)
                 (DomainConfig.domainName cfg))
   | None =>
       HostedZoneLookup_zoneId (name +:+ "HostedZoneLookup")
         (nullish (DomainConfig.hostedZone cfg)
            (DomainConfig.domainName cfg))
   end).

Abbreviation certArgs_of cfg :=
  (DnsValidatedCertificateArgs.mk
     (Resolved (DomainConfig.domainName cfg))
     (Resolved (DomainConfig.aliases cfg))
     (zone_of cfg)).

Abbreviation distArgs_of args cfg :=
  (transform (CdnArgs.transform_distribution args)
     (distributionDefaults (Some (Resolved cfg))
        (Some (CertificateHandle.mk
                 (DnsValidatedCertificate_certificateArn (name +:+ "Ssl")
                    (certArgs_of cfg)))))).

Abbreviation distribution_of args cfg :=
  (DistributionHandle.mk
     (Distribution_domainName (name +:+ "Distribution")
        (distArgs_of args cfg))
     (Distribution_hostedZoneId (name +:+ "Distribution")
        (distArgs_of args cfg))).

Lemma zoneId_resolved (args : CdnArgs.t) (cfg : DomainConfig.t) :
  normalizeDomain args = Some (Resolved cfg) ->
  the_zoneId args = Some (zone_of cfg).
Proof.
  intros Hn. rewrite zoneId_eq, Hn. reflexivity.
Qed.

Lemma distribution_resolved (args : CdnArgs.t) (cfg : DomainConfig.t) :
  normalizeDomain args = Some (Resolved cfg) ->
  Cdn.distribution (value (new_Cdn args)) = distribution_of args cfg.
Proof.
  intros Hn. rewrite constructor_distribution, Hn.
  rewrite (zoneId_resolved args cfg Hn). reflexivity.
Qed.

(** The whole log on a resolved domain, in closed form. *)
Lemma resolved_log (args : CdnArgs.t) (cfg : DomainConfig.t) :
  normalizeDomain args = Some (Resolved cfg) ->
  requests (new_Cdn args)
  = (if truthy_opt (DomainConfig.hostedZoneId cfg) then []
     else [HostedZoneLookup (name +:+ "HostedZoneLookup")
             (nullish (DomainConfig.hostedZone cfg)
                (DomainConfig.domainName cfg))])
    ++ [DnsValidatedCertificate (name +:+ "Ssl") (certArgs_of cfg)
          "us-east-1"]
    ++ [Distribution (name +:+ "Distribution") (distArgs_of args cfg)]
    ++ match DomainConfig.aliases cfg with
       | Some al =>
           flat_map (fun recordName =>
                       [dnsRecord sanitizeToPascalCase name (zone_of cfg)
                          (distribution_of args cfg) recordName "A";
                        dnsRecord sanitizeToPascalCase name (zone_of cfg)
                          (distribution_of args cfg) recordName "AAAA"])
             (DomainConfig.domainName cfg :: al)
       | None => []
       end
    ++ match DomainConfig.redirects cfg with
       | Some (r :: rs) =>
           [HttpsRedirect (name +:+ "Redirect")
              (HttpsRedirectArgs.mk (zone_of cfg) (r :: rs)
                 (DomainConfig.domainName cfg))]
       | _ => []
       end.
Proof.
  intros Hn.
  rewrite (constructor_resolved _ _ _ _ _ _ args cfg (zone_of cfg) Hn
             (zoneId_resolved args cfg Hn)).
  rewrite (distribution_resolved args cfg Hn).
  rewrite lookup_requests, createSsl_requests, createDistribution_requests,
    records_requests, redirects_requests.
  reflexivity.
Qed.

(** The log without a domain. *)
Lemma absent_log (args : CdnArgs.t) :
  normalizeDomain args = None ->
  requests (new_Cdn args)
  = [Distribution (name +:+ "Distribution")
       (transform (CdnArgs.transform_distribution args)
          (distributionDefaults None None))].
Proof.
  intros Hn. rewrite constructor_requests, zoneId_eq, Hn. reflexivity.
Qed.

Lemma filter_records_nil (p : Request -> bool) (zone : Output string)
    (distribution : DistributionHandle.t) (aliases : option (list string))
    (first : string) :
  (forall n a, p (Route53Record n a) = false) ->
  List.filter p
    match aliases with
    | Some al =>
        flat_map (fun recordName =>
                    [dnsRecord sanitizeToPascalCase name zone distribution
                       recordName "A";
                     dnsRecord sanitizeToPascalCase name zone distribution
                       recordName "AAAA"])
          (first :: al)
    | None => []
    end = [].
Proof.
  intros Hp. destruct aliases as [al|]; [|reflexivity].
  apply filter_dnsRecords_nil. exact Hp.
Qed.

Lemma filter_records_all (zone : Output string)
    (distribution : DistributionHandle.t) (aliases : option (list string))
    (first : string) :
  let records :=
    match aliases with
    | Some al =>
        flat_map (fun recordName =>
                    [dnsRecord sanitizeToPascalCase name zone distribution
                       recordName "A";
                     dnsRecord sanitizeToPascalCase name zone distribution
                       recordName "AAAA"])
          (first :: al)
    | None => []
    end in
  List.filter is_record records = records
  /\ length records
     = 2 * match aliases with Some al => S (length al) | None => 0 end.
Proof.
  destruct aliases as [al|]; [|split; reflexivity].
  exact (filter_records_dnsRecords sanitizeToPascalCase name zone
           distribution (first :: al)).
Qed.

(** The log of a resolved domain, kind by kind. *)
Lemma resolved_filters (args : CdnArgs.t) (cfg : DomainConfig.t) :
  normalizeDomain args = Some (Resolved cfg) ->
  let log := requests (new_Cdn args) in
  List.filter is_lookup log
  = (if truthy_opt (DomainConfig.hostedZoneId cfg) then []
     else [HostedZoneLookup (name +:+ "HostedZoneLookup")
             (nullish (DomainConfig.hostedZone cfg)
                (DomainConfig.domainName cfg))])
  /\ List.filter is_certificate log
     = [DnsValidatedCertificate (name +:+ "Ssl") (certArgs_of cfg)
          "us-east-1"]
  /\ List.filter is_distribution log
     = [Distribution (name +:+ "Distribution") (distArgs_of args cfg)]
  /\ List.filter is_record log
     = match DomainConfig.aliases cfg with
       | Some al =>
           flat_map (fun recordName =>
                       [dnsRecord sanitizeToPascalCase name (zone_of cfg)
                          (distribution_of args cfg) recordName "A";
                        dnsRecord sanitizeToPascalCase name (zone_of cfg)
                          (distribution_of args cfg) recordName "AAAA"])
             (DomainConfig.domainName cfg :: al)
       | None => []
       end
  /\ List.filter is_redirect log
     = match DomainConfig.redirects cfg with
       | Some (r :: rs) =>
           [HttpsRedirect (name +:+ "Redirect")
              (HttpsRedirectArgs.mk (zone_of cfg) (r :: rs)
                 (DomainConfig.domainName cfg))]
       | _ => []
       end.
Proof.
  intros Hn log. subst log.
  rewrite (resolved_log args cfg Hn).
  rewrite !List.filter_app.
  rewrite (filter_records_nil is_lookup), (filter_records_nil is_certificate),
    (filter_records_nil is_distribution), (filter_records_nil is_redirect)
    by reflexivity.
  destruct (filter_records_all (zone_of cfg) (distribution_of args cfg)
              (DomainConfig.aliases cfg) (DomainConfig.domainName cfg))
    as [Hf _].
  rewrite Hf.
  destruct (truthy_opt (DomainConfig.hostedZoneId cfg));
    destruct (DomainConfig.redirects cfg) as [[|r rs]|];
    cbn [List.filter is_distribution is_lookup is_certificate is_redirect
           is_record app];
    rewrite ?app_nil_r; repeat split.
Qed.

(** X2.  Whatever the arguments, the constructor requests exactly one
    distribution, at most one zone lookup, at most one certificate, at
    most one redirect, and an even number of DNS records. *)
Theorem request_counts (args : CdnArgs.t) :
  let log := requests (new_Cdn args) in
  length (List.filter is_distribution log) = 1
  /\ length (List.filter is_lookup log) <= 1
  /\ length (List.filter is_certificate log) <= 1
  /\ length (List.filter is_redirect log) <= 1
  /\ exists k, length (List.filter is_record log) = 2 * k.
Proof.
  intros log. subst log.
  destruct (normalizeDomain args) as [[cfg|e]|] eqn:Hn.
  - destruct (resolved_filters args cfg Hn) as (Hl & Hc & Hd & Hr & Hrd).
    rewrite Hl, Hc, Hd, Hr, Hrd.
    split; [reflexivity|]. split.
    { destruct (truthy_opt (DomainConfig.hostedZoneId cfg)); simpl; lia. }
    split; [simpl; lia|]. split.
    { destruct (DomainConfig.redirects cfg) as [[|r rs]|]; simpl; lia. }
    destruct (filter_records_all (zone_of cfg) (distribution_of args cfg)
                (DomainConfig.aliases cfg) (DomainConfig.domainName cfg))
      as [_ Hlen].
    eexists. exact Hlen.
  - destruct (constructor_rejected sanitizeToPascalCase
                HostedZoneLookup_zoneId
                DnsValidatedCertificate_certificateArn
                Distribution_domainName Distribution_hostedZoneId name
                args e Hn) as (_ & _ & _ & ->).
    cbn. repeat split; try lia. exists 0. reflexivity.
  - rewrite (absent_log args Hn).
    cbn. repeat split; try lia. exists 0. reflexivity.
Qed.

(** X3.  With a resolved domain, the distribution is requested with the alias
    list [domainName :: aliases] and with a viewer certificate that is the
    ARN of the very certificate this constructor requests, served by SNI;
    the transform is applied to that argument set. *)
Theorem distribution_of_domain (args : CdnArgs.t) (cfg : DomainConfig.t)
    (al : list string) :
  normalizeDomain args = Some (Resolved cfg) ->
  DomainConfig.aliases cfg = Some al ->
  exists certArgs distDefaults,
    List.filter is_certificate (requests (new_Cdn args))
    = [DnsValidatedCertificate (name +:+ "Ssl") certArgs "us-east-1"]
    /\ List.filter is_distribution (requests (new_Cdn args))
       = [Distribution (name +:+ "Distribution")
            (transform (CdnArgs.transform_distribution args) distDefaults)]
    /\ DistributionArgs.aliases distDefaults
       = Async (Resolved (DomainConfig.domainName cfg :: al))
    /\ DistributionArgs.viewerCertificate distDefaults
       = ViewerCertificate.mk
           (Some (DnsValidatedCertificate_certificateArn (name +:+ "Ssl")
                    certArgs))
           (Some "sni-only") None.
Proof.
  intros Hn Hal.
  destruct (resolved_filters args cfg Hn) as (_ & Hc & Hd & _ & _).
  eexists _, _. split; [exact Hc|]. split; [exact Hd|].
  split; [|reflexivity].
  cbn. rewrite Hal. reflexivity.
Qed.

(** X4.  [domainUrl] is undefined exactly when [args.domain] is falsy; on a
    resolved domain it is [https://] followed by the primary domain
    name. *)
Theorem domainUrl_defined (args : CdnArgs.t) :
  let c := value (new_Cdn args) in
  (domainUrl c = None <-> domain_truthy (CdnArgs.domain args) = false)
  /\ (forall cfg,
        normalizeDomain args = Some (Resolved cfg) ->
        domainUrl c
        = Some (Resolved ("https://" +:+ DomainConfig.domainName cfg))).
Proof.
  intros c. subst c. rewrite constructor_domainUrl. split.
  - rewrite <- normalizeDomain_None.
    destruct (normalizeDomain args); split; congruence.
  - intros cfg ->. reflexivity.
Qed.

(** X5.  Whatever the arguments, [url] is the https URL of the domain name of
    the one distribution that the constructor requests, which is also the
    distribution that [nodes] exposes. *)
Theorem url_of_distribution (args : CdnArgs.t) :
  let c := new_Cdn args in
  exists distArgs,
    List.filter is_distribution (requests c)
    = [Distribution (name +:+ "Distribution") distArgs]
    /\ url (value c)
       = interpolate "https://"
           (Distribution_domainName (name +:+ "Distribution") distArgs)
    /\ CdnNodes.distribution (nodes (value c))
       = DistributionHandle.mk
           (Distribution_domainName (name +:+ "Distribution") distArgs)
           (Distribution_hostedZoneId (name +:+ "Distribution") distArgs).
Proof.
  intros c. subst c. unfold url, nodes. cbn [CdnNodes.distribution].
  destruct (normalizeDomain args) as [[cfg|e]|] eqn:Hn.
  - destruct (resolved_filters args cfg Hn) as (_ & _ & Hd & _ & _).
    eexists. split; [exact Hd|].
    rewrite (distribution_resolved args cfg Hn). split; reflexivity.
  - destruct (constructor_rejected sanitizeToPascalCase
                HostedZoneLookup_zoneId
                DnsValidatedCertificate_certificateArn
                Distribution_domainName Distribution_hostedZoneId name
                args e Hn) as (Hz & _ & _ & Hr).
    eexists. rewrite Hr. split; [reflexivity|].
    rewrite constructor_distribution, Hn, Hz. split; reflexivity.
  - eexists. rewrite (absent_log args Hn). split; [reflexivity|].
    rewrite constructor_distribution, zoneId_eq, Hn. split; reflexivity.
Qed.



(** X7.  A descriptor that passes validation but carries [aliases: undefined]
    gets no DNS record at all: the explicit [undefined] overrides the
    default of the spread, the certificate is asked for with undefined
    alternative names, and the alias list computed for the distribution
    rejects with a TypeError. *)
Theorem undefined_aliases (args : CdnArgs.t) (i : Input DomainValue)
    (d : CdnDomainArgs.t) (cfg : DomainConfig.t) :
  CdnArgs.domain args = Some i ->
  output i = Resolved (DomainObject d) ->
  CdnDomainArgs.aliases d = Undefined ->
  normalizeDomain args = Some (Resolved cfg) ->
  let log := requests (new_Cdn args) in
  List.filter is_record log = []
  /\ exists certArgs distDefaults,
       List.filter is_certificate log
       = [DnsValidatedCertificate (name +:+ "Ssl") certArgs "us-east-1"]
       /\ DnsValidatedCertificateArgs.alternativeNames certArgs
          = Resolved None
       /\ List.filter is_distribution log
          = [Distribution (name +:+ "Distribution")
               (transform (CdnArgs.transform_distribution args)
                  distDefaults)]
       /\ DistributionArgs.aliases distDefaults = Async (Rejected TypeError).
Proof.
  intros Hd Hout Hal Hn log. subst log.
  assert (Hcfg : DomainConfig.aliases cfg = None).
  { pose proof Hn as Hcb.
    rewrite (normalizeDomain_descriptor args i d Hd Hout) in Hcb.
    injection Hcb as Hcb.
    destruct (callback_accepts d cfg Hcb) as (_ & _ & _ & Ha & _).
    rewrite Ha, Hal. reflexivity. }
  destruct (resolved_filters args cfg Hn) as (_ & Hc & Hdist & Hr & _).
  rewrite Hr, Hcfg. split; [reflexivity|].
  eexists _, _. split; [exact Hc|]. split.
  { cbn. rewrite Hcfg. reflexivity. }
  split; [exact Hdist|].
  cbn. rewrite Hcfg. reflexivity.
Qed.

(** X8.  A descriptor that passes validation but carries
    [redirects: undefined] gets no redirect: reading [.length] of the
    undefined list throws inside the callback, before anything is
    requested. *)
Theorem undefined_redirects (args : CdnArgs.t) (i : Input DomainValue)
    (d : CdnDomainArgs.t) (cfg : DomainConfig.t) :
  CdnArgs.domain args = Some i ->
  output i = Resolved (DomainObject d) ->
  CdnDomainArgs.redirects d = Undefined ->
  normalizeDomain args = Some (Resolved cfg) ->
  List.filter is_redirect (requests (new_Cdn args)) = []
  /\ createRedirects name (normalizeDomain args) (the_zoneId args)
     = ret tt.
Proof.
  intros Hd Hout Hrs Hn.
  assert (Hcfg : DomainConfig.redirects cfg = None).
  { pose proof Hn as Hcb.
    rewrite (normalizeDomain_descriptor args i d Hd Hout) in Hcb.
    injection Hcb as Hcb.
    destruct (callback_accepts d cfg Hcb) as (_ & _ & _ & _ & Hr & _).
    rewrite Hr, Hrs. reflexivity. }
  destruct (resolved_filters args cfg Hn) as (_ & _ & _ & _ & Hrd).
  rewrite Hrd, Hcfg. split; [reflexivity|].
  rewrite (zoneId_resolved args cfg Hn), Hn.
  unfold createRedirects. cbn. rewrite Hcfg. reflexivity.
Qed.



(** The constructor reads [args.domain] only through [normalizeDomain]. *)
Lemma constructor_ext (a1 a2 : CdnArgs.t) :
  normalizeDomain a1 = normalizeDomain a2 ->
  CdnArgs.transform_distribution a1 = CdnArgs.transform_distribution a2 ->
  new_Cdn a1 = new_Cdn a2.
Proof.
  intros Hn Ht. unfold constructor, createDistribution.
  rewrite Hn, Ht. reflexivity.
Qed.

(** X10.  [domain: d] for a non-empty string [d] and
    [domain: { domainName: d }] build the same component: the same
    requests in the same order and the same outputs. *)
Theorem bare_string_is_descriptor (d : string)
    (t : Transform DistributionArgs.t) :
  d <> EmptyString ->
  new_Cdn (CdnArgs.mk (Some (Plain (DomainString d))) t)
  = new_Cdn
      (CdnArgs.mk
         (Some (Plain
                  (DomainObject
                     (CdnDomainArgs.mk (Some d) Absent Absent None None))))
         t).
Proof.
  intros Hne. apply truthy_nonempty in Hne.
  apply constructor_ext; [|reflexivity].
  unfold normalizeDomain. cbn. rewrite Hne. reflexivity.
Qed.

(** X11.  Handing the domain over as a resolved promise or Output builds the
    same component as handing it over plainly, except for the empty
    string, which only counts as a domain when wrapped. *)
Theorem promise_is_plain (v : DomainValue)
    (t : Transform DistributionArgs.t) :
  v <> DomainString EmptyString ->
  new_Cdn (CdnArgs.mk (Some (Async (Resolved v))) t)
  = new_Cdn (CdnArgs.mk (Some (Plain v)) t).
Proof.
  intros Hv. apply constructor_ext; [|reflexivity].
  unfold normalizeDomain. cbn [CdnArgs.domain domain_truthy output].
  destruct v as [s|d]; [|reflexivity].
  destruct s as [|ch s]; [contradiction|reflexivity].
Qed.


(** *** Logical names of the DNS records *)

Lemma append_inj_l (s a b : string) : s +:+ a = s +:+ b -> a = b.
Proof.
  induction s as [|ch s IH]; simpl; intros H.
  - exact H.
  - injection H as H. exact (IH H).
Qed.

Lemma record_name_inj (type s1 s2 : string) :
  name +:+ type +:+ "Record" +:+ s1 = name +:+ type +:+ "Record" +:+ s2 ->
  s1 = s2.
Proof.
  intros H. apply append_inj_l in H. apply append_inj_l in H.
  exact (append_inj_l "Record" s1 s2 H).
Qed.

Lemma record_name_types_differ (s1 s2 : string) :
  name +:+ "A" +:+ "Record" +:+ s1 <> name +:+ "AAAA" +:+ "Record" +:+ s2.
Proof.
  intros H. apply append_inj_l in H. simpl in H. discriminate.
Qed.

Lemma record_names_map (zone : Output string)
    (distribution : DistributionHandle.t) (names : list string) :
  map request_name
    (flat_map (fun recordName =>
                 [dnsRecord sanitizeToPascalCase name zone distribution
                    recordName "A";
                  dnsRecord sanitizeToPascalCase name zone distribution
                    recordName "AAAA"]) names)
  = flat_map (fun s => [name +:+ "A" +:+ "Record" +:+ s;
                        name +:+ "AAAA" +:+ "Record" +:+ s])
      (map sanitizeToPascalCase names).
Proof.
  induction names as [|n rest IH]; [reflexivity|].
  cbn [flat_map map app]. rewrite IH. reflexivity.
Qed.

Lemma in_record_names (x : string) (l : list string) :
  In x (flat_map (fun s => [name +:+ "A" +:+ "Record" +:+ s;
                            name +:+ "AAAA" +:+ "Record" +:+ s]) l)
  <-> exists s, In s l
                /\ (x = name +:+ "A" +:+ "Record" +:+ s
                    \/ x = name +:+ "AAAA" +:+ "Record" +:+ s).
Proof.
  rewrite in_flat_map. split.
  - intros (s & Hs & Hx). exists s. split; [exact Hs|].
    destruct Hx as [Hx|[Hx|[]]]; [left|right]; congruence.
  - intros (s & Hs & Hx). exists s. split; [exact Hs|].
    destruct Hx as [Hx|Hx]; subst x; [left|right; left]; reflexivity.
Qed.

Lemma NoDup_record_names (l : list string) :
  List.NoDup (flat_map (fun s => [name +:+ "A" +:+ "Record" +:+ s;
                             name +:+ "AAAA" +:+ "Record" +:+ s]) l)
  <-> List.NoDup l.
Proof.
  induction l as [|s rest IH]; cbn [flat_map app].
  - split; intros _; constructor.
  - rewrite !List.NoDup_cons_iff, IH. cbn [In].
    rewrite !in_record_names. split.
    + intros (HA & H4 & Hrest). split; [|exact Hrest].
      intros Hin. apply H4. exists s. split; [exact Hin|]. right.
      reflexivity.
    + intros (Hs & Hrest). split; [|split; [|exact Hrest]].
      * intros [Heq|(s' & Hin & [Heq|Heq])].
        -- symmetry in Heq. exact (record_name_types_differ s s Heq).
        -- apply record_name_inj in Heq. subst s'. exact (Hs Hin).
        -- exact (record_name_types_differ s s' Heq).
      * intros (s' & Hin & [Heq|Heq]).
        -- symmetry in Heq. exact (record_name_types_differ s' s Heq).
        -- apply record_name_inj in Heq. subst s'. exact (Hs Hin).
Qed.

(** X12.  The DNS records of one component get pairwise distinct logical names
    exactly when the names [domainName :: aliases] stay pairwise distinct
    after [sanitizeToPascalCase]: an alias repeated, equal to the primary
    name, or differing from another name only in what the sanitizer
    drops, makes two records share a name. *)
Theorem record_names_distinct (args : CdnArgs.t) (cfg : DomainConfig.t)
    (al : list string) :
  normalizeDomain args = Some (Resolved cfg) ->
  DomainConfig.aliases cfg = Some al ->
  List.NoDup (map request_name
           (List.filter is_record (requests (new_Cdn args))))
  <-> List.NoDup (map sanitizeToPascalCase (DomainConfig.domainName cfg :: al)).
Proof.
  intros Hn Hal.
  destruct (resolved_filters args cfg Hn) as (_ & _ & _ & Hr & _).
  rewrite Hr, Hal, record_names_map. apply NoDup_record_names.
Qed.


Lemma records_unblocked (z : string) (distribution : DistributionHandle.t)
    (names : list string) :
  is_rejected (DistributionHandle.domainName distribution) = false ->
  is_rejected (DistributionHandle.hostedZoneId distribution) = false ->
  existsb blocked
    (flat_map (fun recordName =>
                 [dnsRecord sanitizeToPascalCase name (Resolved z)
                    distribution recordName "A";
                  dnsRecord sanitizeToPascalCase name (Resolved z)
                    distribution recordName "AAAA"]) names) = false.
Proof.
  intros Hd Hz.
  induction names as [|n rest IH]; [reflexivity|].
  cbn [flat_map app]. cbn [existsb]. rewrite IH.
  cbn. rewrite Hd, Hz. reflexivity.
Qed.

(** X13.  The other way round: with a resolved domain whose [aliases] are a
    list, a zone id that resolves, an engine that answers the ARN of a
    certificate whose arguments resolve and the distribution's domain name
    and zone id, and no transform, not a single request of the constructor
    is blocked. *)
Theorem nothing_blocked (args : CdnArgs.t) (cfg : DomainConfig.t)
    (al : list string) (z : string) :
  normalizeDomain args = Some (Resolved cfg) ->
  DomainConfig.aliases cfg = Some al ->
  the_zoneId args = Some (Resolved z) ->
  CdnArgs.transform_distribution args = None ->
  (forall n a,
      blocked (DnsValidatedCertificate n a "us-east-1") = false ->
      is_rejected (DnsValidatedCertificate_certificateArn n a) = false) ->
  (forall n a, is_rejected (Distribution_domainName n a) = false) ->
  (forall n a, is_rejected (Distribution_hostedZoneId n a) = false) ->
  existsb blocked (requests (new_Cdn args)) = false.
Proof.
  intros Hn Hal Hz Ht Harn Hhost Hid.
  assert (Hzone : zone_of cfg = Resolved z).
  { rewrite (zoneId_resolved args cfg Hn) in Hz. injection Hz as Hz.
    exact Hz. }
  rewrite (resolved_log args cfg Hn), Hal, Hzone, Ht.
  rewrite !existsb_app.
  rewrite records_unblocked by (cbn; auto).
  replace (existsb blocked
             (if truthy_opt (DomainConfig.hostedZoneId cfg) then []
              else [HostedZoneLookup (name +:+ "HostedZoneLookup")
                      (nullish (DomainConfig.hostedZone cfg)
                         (DomainConfig.domainName cfg))]))
    with false
    by (destruct (truthy_opt (DomainConfig.hostedZoneId cfg)); reflexivity).
  replace (existsb blocked
             match DomainConfig.redirects cfg with
             | Some (r :: rs) =>
                 [HttpsRedirect (name +:+ "Redirect")
                    (HttpsRedirectArgs.mk (Resolved z) (r :: rs)
                       (DomainConfig.domainName cfg))]
             | _ => []
             end)
    with false
    by (destruct (DomainConfig.redirects cfg) as [[|r rs]|]; reflexivity).
  cbn. rewrite Hal. cbn. rewrite Harn; reflexivity.
Qed.

End ConstructorLog.

(** * Further properties of the [Resource] proxy *)

Section ResourceProxyProperties.

Variable Value : Type.
Variable JSON_parse : string -> option Value.

Lemma envName_inj (p q : string) :
  "SST_RESOURCE_" +:+ p = "SST_RESOURCE_" +:+ q -> p = q.
Proof. simpl. intros H. injection H as H. exact H. Qed.

(** X14.  Every way a lookup can end, and what it means: a value comes from the
    non-empty environment variable of that name or, failing that, from the
    link table; a SyntaxError means the non-empty variable does not parse;
    a TypeError means the variable is unset or empty and no link table was
    injected; the only Error is the not-linked one, for a name with
    neither a usable variable nor an entry; nothing else is thrown. *)
Theorem Resource_get_outcome (process_env : gmap string string)
    (SST_LINKS : option (gmap string Value)) (prop : string) :
  let envName := "SST_RESOURCE_" +:+ prop in
  match Resource_get JSON_parse process_env SST_LINKS prop with
  | Return v =>
      (exists text, process_env !! envName = Some text
                    /\ text <> EmptyString /\ JSON_parse text = Some v)
      \/ (truthy_opt (process_env !! envName) = false
          /\ exists links, SST_LINKS = Some links /\ links !! prop = Some v)
  | Throw SyntaxError =>
      exists text, process_env !! envName = Some text
                   /\ text <> EmptyString /\ JSON_parse text = None
  | Throw TypeError =>
      truthy_opt (process_env !! envName) = false /\ SST_LINKS = None
  | Throw (Error message) =>
      message = not_linked_message prop
      /\ truthy_opt (process_env !! envName) = false
      /\ exists links, SST_LINKS = Some links /\ links !! prop = None
  | Throw (Rejection _) => False
  end.
Proof.
  intros envName. unfold Resource_get. fold envName.
  assert (Hlinks : forall (Hfalse : truthy_opt (process_env !! envName) = false),
    match
      match SST_LINKS with
      | Some links =>
          match links !! prop with
          | Some v => Return v
          | None => Throw (Error (not_linked_message prop))
          end
      | None => Throw TypeError
      end
    with
    | Return v =>
        (exists text, process_env !! envName = Some text
                      /\ text <> EmptyString /\ JSON_parse text = Some v)
        \/ (truthy_opt (process_env !! envName) = false
            /\ exists links, SST_LINKS = Some links /\ links !! prop = Some v)
    | Throw SyntaxError =>
        exists text, process_env !! envName = Some text
                     /\ text <> EmptyString /\ JSON_parse text = None
    | Throw TypeError =>
        truthy_opt (process_env !! envName) = false /\ SST_LINKS = None
    | Throw (Error message) =>
        message = not_linked_message prop
        /\ truthy_opt (process_env !! envName) = false
        /\ exists links, SST_LINKS = Some links /\ links !! prop = None
    | Throw (Rejection _) => False
    end).
  { intros Hfalse. destruct SST_LINKS as [links|].
    - destruct (links !! prop) as [v|] eqn:Hv.
      + right. split; [exact Hfalse|]. exists links. split; [reflexivity|].
        exact Hv.
      + split; [reflexivity|]. split; [exact Hfalse|]. exists links.
        split; [reflexivity|exact Hv].
    - split; [exact Hfalse|reflexivity]. }
  destruct (process_env !! envName) as [text|] eqn:Henv.
  - destruct (truthy text) eqn:Ht.
    + apply truthy_nonempty in Ht.
      destruct (JSON_parse text) as [v|] eqn:Hp.
      * left. exists text. repeat split; assumption.
      * exists text. repeat split; assumption.
    + apply Hlinks. exact Ht.
  - apply Hlinks. reflexivity.
Qed.

(** X15.  Lookups of different names do not interfere: setting the environment
    variable of another name, or adding an entry for another name to the
    link table, leaves the lookup of this name unchanged. *)
Theorem Resource_get_isolated (process_env : gmap string string)
    (links : gmap string Value) (SST_LINKS : option (gmap string Value))
    (prop other text : string) (v : Value) :
  other <> prop ->
  Resource_get JSON_parse
    (<["SST_RESOURCE_" +:+ other := text]> process_env) SST_LINKS prop
  = Resource_get JSON_parse process_env SST_LINKS prop
  /\ Resource_get JSON_parse process_env (Some (<[other := v]> links)) prop
     = Resource_get JSON_parse process_env (Some links) prop.
Proof.
  intros Hne. unfold Resource_get. split.
  - rewrite lookup_insert_ne; [reflexivity|].
    intros H. apply envName_inj in H. exact (Hne H).
  - rewrite lookup_insert_ne; [reflexivity|exact Hne].
Qed.

(** X16.  Setting the environment variable of a name to a non-empty text makes
    the lookup of that name the parse of the text, whatever the link
    table holds and even when none was injected; setting it to the empty
    text is the same as unsetting it. *)
Theorem Resource_get_variable (process_env : gmap string string)
    (SST_LINKS : option (gmap string Value)) (prop text : string) :
  let envName := "SST_RESOURCE_" +:+ prop in
  (text <> EmptyString ->
   Resource_get JSON_parse (<[envName := text]> process_env) SST_LINKS prop
   = match JSON_parse text with
     | Some v => Return v
     | None => Throw SyntaxError
     end)
  /\ Resource_get JSON_parse (<[envName := EmptyString]> process_env)
       SST_LINKS prop
     = Resource_get JSON_parse (delete envName process_env) SST_LINKS prop.
Proof.
  intros envName. unfold Resource_get. fold envName.
  rewrite !lookup_insert_eq, lookup_delete_eq. split.
  - intros Hne. apply truthy_nonempty in Hne. rewrite Hne. reflexivity.
  - reflexivity.
Qed.

End ResourceProxyProperties.

(** * The sample deployment, continued *)

Lemma distribution_of_domain_witness :
  let args := Sample.with_domain (DomainObject Sample.app) in
  normalizeDomain args = Some (Resolved Sample.app_config)
  /\ DomainConfig.aliases Sample.app_config = Some ["api.example.com"]
  /\ exists certArgs distDefaults,
       List.filter is_certificate (requests (Sample.new_Cdn args))
       = [DnsValidatedCertificate "WebSsl" certArgs "us-east-1"]
       /\ List.filter is_distribution (requests (Sample.new_Cdn args))
          = [Distribution "WebDistribution" distDefaults]
       /\ DistributionArgs.aliases distDefaults
          = Async (Resolved ["app.example.com"; "api.example.com"])
       /\ DistributionArgs.viewerCertificate distDefaults
          = ViewerCertificate.mk
              (Some (Sample.certificateArn "WebSsl" certArgs))
              (Some "sni-only") None.
Proof.
  intros args.
  split; [reflexivity|]. split; [reflexivity|].
  exact (distribution_of_domain Sample.sanitize Sample.lookup_zoneId
           Sample.certificateArn Sample.edge_domainName
           Sample.edge_hostedZoneId "Web" args Sample.app_config
           ["api.example.com"] eq_refl eq_refl).
Defined.

Lemma normalizeDomain_descriptor_outcome_witness :
  let args := Sample.with_domain (DomainObject Sample.app) in
  CdnArgs.domain args = Some (Plain (DomainObject Sample.app))
  /\ normalizeDomain args = Some (Resolved Sample.app_config)
  /\ DomainConfig.domainName Sample.app_config <> EmptyString
  /\ DomainConfig.aliases Sample.app_config = Some ["api.example.com"].
Proof.
  intros args.
  destruct (normalizeDomain_descriptor_outcome args
              (Plain (DomainObject Sample.app)) Sample.app
              eq_refl eq_refl) as (Hok & _ & _).
  destruct (Hok Sample.app_config eq_refl) as (_ & Hne & _ & Hal & _).
  split; [reflexivity|]. split; [reflexivity|]. split; [exact Hne|].
  exact Hal.
Defined.


Lemma undefined_aliases_witness :
  let d :=
    CdnDomainArgs.mk (Some "example.com") Absent Undefined None None in
  let cfg := DomainConfig.mk "example.com" None (Some []) None None in
  let args := Sample.with_domain (DomainObject d) in
  CdnDomainArgs.aliases d = Undefined
  /\ normalizeDomain args = Some (Resolved cfg)
  /\ List.filter is_record (requests (Sample.new_Cdn args)) = [].
Proof.
  intros d cfg args.
  destruct (undefined_aliases Sample.sanitize Sample.lookup_zoneId
              Sample.certificateArn Sample.edge_domainName
              Sample.edge_hostedZoneId "Web" args (Plain (DomainObject d))
              d cfg eq_refl eq_refl eq_refl eq_refl) as [Hr _].
  split; [reflexivity|]. split; [reflexivity|exact Hr].
Defined.

Lemma undefined_redirects_witness :
  let d :=
    CdnDomainArgs.mk (Some "example.com") Undefined Absent None None in
  let cfg := DomainConfig.mk "example.com" (Some []) None None None in
  let args := Sample.with_domain (DomainObject d) in
  CdnDomainArgs.redirects d = Undefined
  /\ normalizeDomain args = Some (Resolved cfg)
  /\ List.filter is_redirect (requests (Sample.new_Cdn args)) = [].
Proof.
  intros d cfg args.
  destruct (undefined_redirects Sample.sanitize Sample.lookup_zoneId
              Sample.certificateArn Sample.edge_domainName
              Sample.edge_hostedZoneId "Web" args (Plain (DomainObject d))
              d cfg eq_refl eq_refl eq_refl eq_refl) as [Hr _].
  split; [reflexivity|]. split; [reflexivity|exact Hr].
Defined.


Lemma bare_string_is_descriptor_witness :
  "example.com"%string <> EmptyString
  /\ Sample.new_Cdn (Sample.with_domain (DomainString "example.com"))
     = Sample.new_Cdn
         (Sample.with_domain
            (DomainObject
               (CdnDomainArgs.mk (Some "example.com") Absent Absent None
                  None))).
Proof.
  assert (Hne : "example.com"%string <> EmptyString) by discriminate.
  split; [exact Hne|].
  exact (bare_string_is_descriptor Sample.sanitize Sample.lookup_zoneId
           Sample.certificateArn Sample.edge_domainName
           Sample.edge_hostedZoneId "Web" "example.com" None Hne).
Defined.

Lemma promise_is_plain_witness :
  DomainObject Sample.app <> DomainString EmptyString
  /\ Sample.new_Cdn
       (CdnArgs.mk (Some (Async (Resolved (DomainObject Sample.app)))) None)
     = Sample.new_Cdn (Sample.with_domain (DomainObject Sample.app)).
Proof.
  assert (Hne : DomainObject Sample.app <> DomainString EmptyString)
    by discriminate.
  split; [exact Hne|].
  exact (promise_is_plain Sample.sanitize Sample.lookup_zoneId
           Sample.certificateArn Sample.edge_domainName
           Sample.edge_hostedZoneId "Web" (DomainObject Sample.app) None
           Hne).
Defined.

Lemma record_names_distinct_witness :
  let args := Sample.with_domain (DomainObject Sample.app) in
  normalizeDomain args = Some (Resolved Sample.app_config)
  /\ DomainConfig.aliases Sample.app_config = Some ["api.example.com"]
  /\ (List.NoDup ["app.example.com"; "api.example.com"]
      -> List.NoDup
           (map request_name
              (List.filter is_record (requests (Sample.new_Cdn args))))).
Proof.
  intros args.
  split; [reflexivity|]. split; [reflexivity|].
  exact (proj2 (record_names_distinct Sample.sanitize Sample.lookup_zoneId
                  Sample.certificateArn Sample.edge_domainName
                  Sample.edge_hostedZoneId "Web" args Sample.app_config
                  ["api.example.com"] eq_refl eq_refl)).
Defined.

Lemma Resource_get_isolated_witness :
  let process_env : gmap string string := ∅ in
  let links : gmap string nat := {[ "Queue"%string := 7 ]} in
  "Bucket"%string <> "Queue"%string
  /\ Resource_get Sample.parse
       (<["SST_RESOURCE_Bucket"%string := "42"%string]> process_env)
       (Some links) "Queue"
     = Resource_get Sample.parse process_env (Some links) "Queue".
Proof.
  intros process_env links.
  assert (Hne : "Bucket"%string <> "Queue"%string) by discriminate.
  split; [exact Hne|].
  exact (proj1 (Resource_get_isolated nat Sample.parse process_env links
                  (Some links) "Queue" "Bucket" "42" 0 Hne)).
Defined.

Lemma Resource_get_variable_witness :
  "42"%string <> EmptyString
  /\ Resource_get Sample.parse
       (<["SST_RESOURCE_Bucket"%string := "42"%string]> ∅) None "Bucket"
     = Return 42.
Proof.
  assert (Hne : "42"%string <> EmptyString) by discriminate.
  split; [exact Hne|].
  exact (proj1 (Resource_get_variable nat Sample.parse ∅ None "Bucket" "42")
           Hne).
Defined.

Lemma nothing_blocked_witness :
  let args := Sample.with_domain (DomainObject Sample.app) in
  normalizeDomain args = Some (Resolved Sample.app_config)
  /\ Sample.zone args = Some (Resolved "Z-example.com")
  /\ existsb blocked (requests (Sample.new_Cdn args)) = false.
Proof.
  intros args.
  split; [reflexivity|]. split; [reflexivity|].
  refine (nothing_blocked Sample.sanitize Sample.lookup_zoneId
            Sample.certificateArn Sample.edge_domainName
            Sample.edge_hostedZoneId "Web" args Sample.app_config
            ["api.example.com"] "Z-example.com" eq_refl eq_refl eq_refl
            eq_refl _ _ _).
  - intros n a. unfold Sample.certificateArn. cbn [blocked].
    destruct (DnsValidatedCertificateArgs.domainName a);
      destruct (DnsValidatedCertificateArgs.alternativeNames a);
      destruct (DnsValidatedCertificateArgs.zoneId a);
      cbn; intros H; congruence.
  - intros n a. reflexivity.
  - intros n a. reflexivity.
Defined.
